(** * research/views.py: the survey analysis pipeline

    A shallow embedding of the two request handlers of
    [research/views.py] ([analyze] and [export_word]) and of the
    narrative helper [ai_generate_discussion], together with the data they
    build: frequency tables, the correlation matrix, the pairwise tests,
    the list of table discussions and the report kept in the session.

    Numbers.  The Python code computes in float64.  A finite float64 is a
    rational number, so the values are modelled as [Q] (with NaN and the
    infinities added), and an operation of the handlers on floats is the
    exact operation followed by the rounding [fl] to the nearest float64.
    The statistics of pandas and scipy are not computed here: the mean and
    the deviation of a column and the Welch test are parameters, and the
    correlation matrix follows the words of the specification.

    Texts.  A text is the string of the bytes of its UTF-8 encoding. *)

From Stdlib Require Import ZArith QArith Qround Qabs Qpower Qcanon Lia Lqa Bool.
From Stdlib Require Import String Ascii List Sorted DecimalString.
From stdpp Require Import gmap strings list sorting.

Open Scope string_scope.
Open Scope list_scope.

(** ** float64 values and rounding *)

Inductive float64 : Type :=
| Fin (q : Q)
| NaN
| Inf (negative : bool).

(** [x == y] on floats: NaN differs from everything, itself included. *)
Definition float_eqb (x y : float64) : bool :=
  match x, y with
  | Fin a, Fin b => Qeq_bool a b
  | Inf s, Inf t => Bool.eqb s t
  | _, _ => false
  end.

Definition pow10 (d : nat) : positive := Pos.pow 10 (Pos.of_nat d).

(** The scale of [d] decimals: 10^d, with 10^0 = 1. *)
Definition scale (d : nat) : positive :=
  match d with O => 1%positive | S _ => pow10 d end.

(** Nearest integer, a tie going to the even neighbour (C's rint). *)
Definition rint (q : Q) : Z :=
  let f := Qfloor q in
  match (q - inject_Z f ?= 1 # 2)%Q with
  | Lt => f
  | Gt => (f + 1)%Z
  | Eq => if Z.even f then f else (f + 1)%Z
  end.

Definition pow2 (e : Z) : Q := (2 ^ e)%Q.

(** The integer part of the binary logarithm of a positive rational. *)
Definition ilog2 (q : Q) : Z :=
  let k := (Z.log2 (Qnum q) - Z.log2 (Zpos (Qden q)) - 1)%Z in
  if Qle_bool (pow2 (k + 1)) q then (k + 1)%Z else k.

Definition negative (q : Q) : bool := (Qnum q <? 0)%Z.

(** The weight of the last bit of the float64 nearest to a positive
    rational: 53 bits, none below 2^-1074. *)
Definition fexp (q : Q) : Z := Z.max (ilog2 q - 52) (-1074).

(** The float64 nearest to a rational, a tie going to the even significand
    (the rounding of IEEE 754 arithmetic); infinite from 2^1024 - 2^970 on.
    Zero has no sign here. *)
Definition fl (q : Q) : float64 :=
  if Qeq_bool q 0 then Fin 0
  else
    let a := Qabs q in
    let v := (inject_Z (rint (a / pow2 (fexp a))) * pow2 (fexp a))%Q in
    if Qle_bool (pow2 1024) v then Inf (negative q)
    else Fin (Qred (if negative q then - v else v)).

(** [x * y] and [x / y] on floats. *)
Definition fmul (x y : float64) : float64 :=
  match x, y with
  | Fin a, Fin b => fl (a * b)
  | Fin a, Inf s | Inf s, Fin a =>
      if Qeq_bool a 0 then NaN else Inf (xorb s (negative a))
  | Inf s, Inf t => Inf (xorb s t)
  | _, _ => NaN
  end.

Definition fdiv (x y : float64) : float64 :=
  match x, y with
  | Fin a, Fin b =>
      if Qeq_bool b 0 then (if Qeq_bool a 0 then NaN else Inf (negative a))
      else fl (a / b)
  | Fin _, Inf _ => Fin 0
  | Inf s, Fin b => Inf (xorb s (negative b))
  | _, _ => NaN
  end.

Definition frint (x : float64) : float64 :=
  match x with
  | Fin a => Fin (inject_Z (rint a))
  | _ => x
  end.

(** numpy's [round(x, d)], which [round] calls on a numpy float and on a
    pandas series: multiply by 10^d, [rint], divide by 10^d, each of them an
    operation on floats. *)
Definition round (x : float64) (d : nat) : float64 :=
  fdiv (frint (fmul x (Fin (inject_Z (Zpos (scale d))))))
       (Fin (inject_Z (Zpos (scale d)))).

(** The float of a count ([int64] to [float64]). *)
Definition float_of_nat (n : nat) : float64 := fl (inject_Z (Z.of_nat n)).

(** The integer nearest to the square root of [q] (for [0 <= q]), ties to
    even: with [l] the integer square root of the floor of [q], the root
    lies in [l, l+1) and is compared with the midpoint through its square. *)
Definition rint_sqrt (q : Q) : Z :=
  let l := Z.sqrt (Qfloor q) in
  match (q ?= ((2 * l + 1) * (2 * l + 1))%Z # 4)%Q with
  | Lt => l
  | Gt => (l + 1)%Z
  | Eq => if Z.even l then l else (l + 1)%Z
  end.

(** [round(s * sqrt q, d)] for a sign [s] in {-1, 0, 1}. *)
Definition round_sqrt (s : Z) (q : Q) (d : nat) : Q :=
  Qred ((s * rint_sqrt (q * inject_Z (Zpos (scale d * scale d)))) # scale d).

(** ** The table read from the spreadsheet (a pandas DataFrame)

    [pd.read_excel] types every column: a column of dtype int64 or float64
    holds numbers, a missing cell being NaN; any other column (object,
    bool, datetime) holds labels, here the text of the cell.  Column labels
    are unique: the reader renames a repeated header. *)

Inductive scalar : Type :=
| Num (q : Q)
| Str (s : string)
| NA.

Inductive series : Type :=
| Numeric (values : list (option Q))
| Object (values : list (option string)).

Record column : Type := { label : string; data : series }.

(** [index] is the number of rows, [len(df)]. *)
Record DataFrame : Type := { index : nat; columns : list column }.

Definition series_len (s : series) : nat :=
  match s with
  | Numeric v => length v
  | Object v => length v
  end.

Definition is_number (c : column) : bool :=
  match data c with Numeric _ => true | Object _ => false end.

(** What [pd.read_excel] returns: every column has one value per row,
    labels are distinct, and a sheet without data rows gives object
    columns only (an empty column is typed object). *)
Definition from_excel (df : DataFrame) : bool :=
  forallb (fun c => Nat.eqb (series_len (data c)) (index df)) (columns df)
  && bool_decide (NoDup (map label (columns df)))
  && (negb (Nat.eqb (index df) 0) || forallb (fun c => negb (is_number c)) (columns df)).

(** [df.select_dtypes(include=np.number)] and
    [df.select_dtypes(exclude=np.number)]: the columns of each kind, in
    column order, each with its label. *)
Definition select_number (df : DataFrame) : list (string * list (option Q)) :=
  omap (fun c => match data c with
                 | Numeric v => Some (label c, v)
                 | Object _ => None
                 end) (columns df).

Definition select_other (df : DataFrame) : list (string * list (option string)) :=
  omap (fun c => match data c with
                 | Numeric _ => None
                 | Object v => Some (label c, v)
                 end) (columns df).

(** [numeric.empty]: no column or no row. *)
Definition empty {A} (sub : list A) (rows : nat) : bool :=
  match sub with [] => true | _ :: _ => Nat.eqb rows 0 end.

Definition cell (i : nat) (c : column) : scalar :=
  match data c with
  | Numeric v => match nth i v None with Some q => Num q | None => NA end
  | Object v => match nth i v None with Some s => Str s | None => NA end
  end.

(** [df.values.tolist()]: the rows. *)
Definition values_tolist (df : DataFrame) : list (list scalar) :=
  map (fun i => map (cell i) (columns df)) (seq 0 (index df)).

(** [s.dropna()] *)
Definition dropna {A} (l : list (option A)) : list A := omap id l.

(** *** value_counts *)

(** One pass over the column: a new value is added at the end of the table,
    a known one has its count increased (a missing cell is the key [None]). *)
Fixpoint tally (k : option string) (tbl : list (option string * nat))
  : list (option string * nat) :=
  match tbl with
  | [] => [(k, 1)]
  | (k', n) :: rest =>
      if bool_decide (k = k') then (k', S n) :: rest else (k', n) :: tally k rest
  end.

Definition count_values (vals : list (option string)) : list (option string * nat) :=
  fold_left (fun tbl v => tally v tbl) vals [].

(** Descending stable insertion: [r] goes before the first row whose count
    is not larger. *)
Fixpoint insert_desc (r : option string * nat) (l : list (option string * nat))
  : list (option string * nat) :=
  match l with
  | [] => [r]
  | h :: t => if Nat.leb (snd h) (snd r) then r :: l else h :: insert_desc r t
  end.

Definition sort_desc (l : list (option string * nat)) : list (option string * nat) :=
  fold_right insert_desc [] l.

(** Modelled from the spec: [Series.value_counts(dropna=False)] is pandas'
    and not part of the sources.  "Categories ordered by descending
    frequency (ties broken by first-seen order), including a category for
    missing/null values." *)
Definition value_counts (vals : list (option string)) : list (option string * nat) :=
  sort_desc (count_values vals).

(** *** corr *)

Definition qsum (l : list Q) : Q := fold_right Qplus 0%Q l.

Definition qlen {A} (l : list A) : Q := inject_Z (Z.of_nat (length l)).

Definition qmean (l : list Q) : Q := (qsum l / qlen l)%Q.

(** Sum of the products of the deviations from the means. *)
Definition sdm (X Y : list Q) : Q :=
  qsum (map (fun p => ((fst p - qmean X) * (snd p - qmean Y))%Q) (combine X Y)).

(** Rows where both values are present. *)
Definition complete_pairs (xs ys : list (option Q)) : list (Q * Q) :=
  omap (fun p => match p with
                 | (Some a, Some b) => Some (a, b)
                 | _ => None
                 end) (combine xs ys).

(** Modelled from the spec: [DataFrame.corr] is pandas' and not part of the
    sources.  "Pairwise Pearson correlation with rows having either value
    missing excluded pairwise", "rounded to 3 decimals"; the quotient by a
    zero deviation ("degenerate/constant column causing division by zero")
    is NaN. The coefficient is sxy / sqrt (sxx * syy), rounded as the root of
    its square with the sign of sxy. *)
Definition pearson_round (xs ys : list (option Q)) (d : nat) : float64 :=
  let ps := complete_pairs xs ys in
  let X := map fst ps in
  let Y := map snd ps in
  if Qeq_bool (sdm X X * sdm Y Y) 0 then NaN
  else Fin (round_sqrt (Z.sgn (Qnum (sdm X Y)))
              (sdm X Y * sdm X Y / (sdm X X * sdm Y Y)) d).

(** [numeric.corr().round(3)] as the list of its rows, each with its label. *)
Definition corr_round (numeric : list (string * list (option Q))) (d : nat)
  : list (string * list float64) :=
  map (fun r => (fst r, map (fun c => pearson_round (snd r) (snd c) d) numeric)) numeric.

(** ** The analysis tables and the report *)

(** A row of [freq.values.tolist()]: Category, Frequency, Percent. *)
Record FrequencyRow : Type :=
  { Category : option string; Frequency : nat; Percent : float64 }.

(** An entry of [ttest_results]. *)
Record TTest : Type :=
  { var1 : string; var2 : string; t_stat : float64; p_val : float64 }.

(** The [table_data] argument of [ai_generate_discussion]. *)
Inductive table_data : Type :=
| RawData (rows : list (list scalar))
| StatsTable (rows : list (string * float64 * float64))
| FreqRows (rows : list FrequencyRow)
| CorrRows (rows : list (string * list float64))
| TTests (results : list TTest).

(** The dict stored under [request.session["report_data"]]. *)
Record Report : Type :=
  { title : string;
    objective : string;
    problem : string;
    total_n : nat;
    raw_cols : list string;
    raw_data : list (list scalar);
    stats_table : list (string * float64 * float64);
    freq_tables : list (string * list FrequencyRow);
    corr_cols : option (list string);
    corr_rows : option (list (string * list float64));
    ttest_results : list TTest;
    table_discussions : list (string * string) }.

(** ** Requests, responses, effects *)

(** [UploadForm(request.POST, request.FILES)]: the form class is declared in
    [forms.py]; the handler uses its validity and its three cleaned fields. *)
Record UploadForm : Type :=
  { is_valid : bool;
    cleaned_title : string;
    cleaned_objective : string;
    cleaned_problem : string }.

(** The uploaded file, as [pd.read_excel] sees it. *)
Inductive upload : Type :=
| Workbook (df : DataFrame)
| Unreadable (message : string).

Record HttpRequest : Type :=
  { method : string; form : UploadForm; file : upload }.

Inductive block : Type :=
| Heading (text : string) (level : nat)
| Paragraph (text : string).

Inductive context : Type :=
| FormContext (f : UploadForm)
| ReportContext (r : Report).

Inductive content : Type :=
| Page (template : string) (ctx : context)
| Text (body : string)
| Docx (document : list block).

(** [content_type = None]: the handler names none and the framework's
    default applies. *)
Record HttpResponse : Type :=
  { content_type : option string;
    headers : list (string * string);
    body : content }.

(** The prompt sent to the text-generation service. *)
Record prompt : Type :=
  { model : string;
    prompt_title : string;
    prompt_description : string;
    prompt_table : table_data }.

Inductive reply : Type :=
| Completion (output_text : string)
| Failure (message : string).

(** What a handler reads and writes besides its request: the session, the
    console, and the number of requests sent to the service so far. *)
Record world : Type :=
  { session : gmap string Report;
    stdout : list string;
    requests : nat }.

Inductive exn : Type :=
| Exception (message : string)
| KeyboardInterrupt.

Inductive result (A : Type) : Type :=
| Return (a : A)
| Raise (e : exn).
Arguments Return {A} a.
Arguments Raise {A} e.

Definition M (A : Type) : Type := world -> result A * world.

Definition ret {A} (a : A) : M A := fun w => (Return a, w).

Definition bind {A B} (c : M A) (k : A -> M B) : M B :=
  fun w => match c w with
           | (Return a, w') => k a w'
           | (Raise e, w') => (Raise e, w')
           end.

#[global] Instance M_ret : MRet M := @ret.
#[global] Instance M_bind : MBind M := fun A B k c => bind c k.

Definition raise {A} (e : exn) : M A := fun w => (Raise e, w).

(** [try: body except Exception as e: handler(e)] *)
Definition try_except {A} (body : M A) (handler : string -> M A) : M A :=
  fun w => match body w with
           | (Raise (Exception e), w') => handler e w'
           | r => r
           end.

Definition print (line : string) : M unit :=
  fun w => (Return tt,
            {| session := session w; stdout := stdout w ++ [line]; requests := requests w |}).

Definition session_set (key : string) (r : Report) : M unit :=
  fun w => (Return tt,
            {| session := <[key := r]> (session w); stdout := stdout w; requests := requests w |}).

Definition session_get (key : string) : M (option Report) :=
  fun w => (Return (session w !! key), w).

Fixpoint for_each {A S} (l : list A) (body : A -> S -> M S) (acc : S) : M S :=
  match l with
  | [] => ret acc
  | x :: rest => acc' ← body x acc; for_each rest body acc'
  end.

(** [str.strip()].  The characters Python takes for whitespace are U+0009
    to U+000D, U+001C to U+0020, U+0085, U+00A0, U+1680, U+2000 to U+200A,
    U+2028, U+2029, U+202F, U+205F and U+3000; each is recognised by the
    bytes of its UTF-8 sequence, of length one, two or three. *)
Definition byte_in (lo hi : nat) (c : ascii) : bool :=
  Nat.leb lo (nat_of_ascii c) && Nat.leb (nat_of_ascii c) hi.

Definition byte (n : nat) (c : ascii) : bool := Nat.eqb (nat_of_ascii c) n.

Definition space1 (c : ascii) : bool := byte_in 9 13 c || byte_in 28 32 c.

Definition space2 (c1 c2 : ascii) : bool :=
  byte 194 c1 && (byte 133 c2 || byte 160 c2).

Definition space3 (c1 c2 c3 : ascii) : bool :=
  (byte 225 c1 && byte 154 c2 && byte 128 c3)
  || (byte 226 c1 && byte 128 c2
      && (byte_in 128 138 c3 || byte 168 c3 || byte 169 c3 || byte 175 c3))
  || (byte 226 c1 && byte 129 c2 && byte 159 c3)
  || (byte 227 c1 && byte 128 c2 && byte 128 c3).

(** The text without the sequences recognised by [b1], [b2], [b3] at its
    start. *)
Fixpoint lstrip_with (b1 : ascii -> bool) (b2 : ascii -> ascii -> bool)
    (b3 : ascii -> ascii -> ascii -> bool) (s : string) : string :=
  match s with
  | EmptyString => s
  | String c1 r1 =>
      if b1 c1 then lstrip_with b1 b2 b3 r1
      else match r1 with
           | EmptyString => s
           | String c2 r2 =>
               if b2 c1 c2 then lstrip_with b1 b2 b3 r2
               else match r2 with
                    | EmptyString => s
                    | String c3 r3 =>
                        if b3 c1 c2 c3 then lstrip_with b1 b2 b3 r3 else s
                    end
           end
  end.

Definition reversed (s : string) : string :=
  string_of_list_ascii (rev (list_ascii_of_string s)).

Definition lstrip (s : string) : string := lstrip_with space1 space2 space3 s.

(** The same from the end: the reversed text, the sequences read backwards. *)
Definition rstrip (s : string) : string :=
  reversed (lstrip_with space1 (fun a b => space2 b a) (fun a b c => space3 c b a)
              (reversed s)).

Definition strip (s : string) : string := rstrip (lstrip s).

(** [range(a, b)] *)
Definition range (a b : nat) : list nat := seq a (b - a).

(** [str(n)] for a count. *)
Definition str_nat (n : nat) : string := NilEmpty.string_of_uint (Nat.to_uint n).

Definition render (template : string) (ctx : context) : HttpResponse :=
  {| content_type := None; headers := []; body := Page template ctx |}.

(** [pd.read_excel(request.FILES["file"])] *)
Definition read_excel (f : upload) : M DataFrame :=
  match f with
  | Workbook df => mret df
  | Unreadable message => raise (Exception message)
  end.

(** Line 99, [round(freq["Frequency"] / total_n * 100, 2)], for one count:
    a division and a multiplication of floats, then numpy's [round]. *)
Definition percent_of (n total : nat) : float64 :=
  round (fmul (fdiv (float_of_nat n) (float_of_nat total)) (Fin 100)) 2.

(** Line 97, [df[col].value_counts(dropna=False).reset_index()] (pandas 2
    and later): the counts come as a series named "count" whose index bears
    the label of the column; [reset_index] makes a column of the index and
    raises ValueError when that label is "count" as well. *)
Definition reset_index (name : string) (counts : list (option string * nat))
  : M (list (option string * nat)) :=
  if String.eqb name "count"
  then raise (Exception "cannot insert count, already exists")
  else mret counts.

(** Lines 98-100: the rows Category, Frequency, Percent of the counts. *)
Definition percent_rows (freq : list (option string * nat)) (total : nat)
  : list FrequencyRow :=
  map (fun kv => {| Category := fst kv;
                    Frequency := snd kv;
                    Percent := percent_of (snd kv) total |})
      freq.

(** The frequency rows of a column whose counts [reset_index] lets
    through. *)
Definition frequency_rows (vals : list (option string)) (total : nat) : list FrequencyRow :=
  percent_rows (value_counts vals) total.

(** [doc.add_heading], [doc.add_paragraph]: a block is appended. *)
Definition add_heading (doc : list block) (text : string) (level : nat) : list block :=
  doc ++ [Heading text level].

Definition add_paragraph (doc : list block) (text : string) : list block :=
  doc ++ [Paragraph text].

Definition fallback : string := "AI-generated discussion is unavailable at the moment.".

Definition docx_mime : string :=
  "application/vnd.openxmlformats-officedocument.wordprocessingml.document".

Section Views.

(** [numeric.agg(["mean", "std"]).T.round(2)], column by column: the mean
    and the sample deviation of the values of a column, as pandas computes
    them in float64, rounded to two decimals. *)
Variable agg : list (option Q) -> float64 * float64.

(** [stats.ttest_ind(a, b, equal_var=False)]: statistic and p-value. *)
Variable ttest_ind : list Q -> list Q -> float64 * float64.

(** The text-generation service: its reply to the request numbered [k]
    (counted from the start of the process) with a given prompt. *)
Variable service : nat -> prompt -> reply.

(** [client.responses.create(model=..., input=...)] followed by
    [response.output_text] *)
Definition responses_create (p : prompt) : M string :=
  fun w =>
    let w' := {| session := session w; stdout := stdout w; requests := S (requests w) |} in
    match service (requests w) p with
    | Completion output_text => (Return output_text, w')
    | Failure message => (Raise (Exception message), w')
    end.

Definition ai_generate_discussion (title description : string) (table : table_data)
  : M string :=
  try_except
    (output_text ← responses_create {| model := "gpt-4.1-mini";
                                       prompt_title := title;
                                       prompt_description := description;
                                       prompt_table := table |};
     mret (strip output_text))
    (fun e =>
       print ("OPENAI ERROR: " +:+ e);;
       mret fallback).

(** Lines 129-143: the nested loops over the numeric columns. *)
Definition ttests (numeric : list (string * list (option Q))) : list TTest :=
  let cols := map fst numeric in
  flat_map (fun i =>
    map (fun j =>
           let tp := ttest_ind (dropna (nth i (map snd numeric) []))
                               (dropna (nth j (map snd numeric) [])) in
           {| var1 := nth i cols "";
              var2 := nth j cols "";
              t_stat := round (fst tp) 4;
              p_val := round (snd tp) 4 |})
        (range (i + 1) (length cols)))
    (range 0 (length cols)).

Definition analyze (request : HttpRequest) : M (option HttpResponse) :=
  if String.eqb (method request) "POST" then
    let form := form request in
    if negb (is_valid form) then
      mret (Some (render "index.html" (FormContext form)))
    else
      df ← read_excel (file request);
      let total_n := index df in
      let raw_cols := map label (columns df) in
      let raw_data := values_tolist df in
      let numeric := select_number df in
      let categorical := select_other df in
      (* raw data *)
      d ← ai_generate_discussion "Table A. Raw Data"
            "This table presents the raw responses of all respondents."
            (RawData raw_data);
      let table_discussions := [("Table A. Raw Data", d)] in
      (* statistics *)
      '(stats_table, table_discussions) ←
        (if negb (empty numeric total_n) then
           let stats_table :=
             map (fun c => (fst c, fst (agg (snd c)), snd (agg (snd c)))) numeric in
           d ← ai_generate_discussion "Table B. Statistical Summary"
                 "This table summarizes central tendency and variability."
                 (StatsTable stats_table);
           mret (stats_table, table_discussions ++ [("Table B. Statistical Summary", d)])
         else mret ([], table_discussions));
      (* frequency *)
      '(freq_tables, table_discussions) ←
        for_each categorical
          (fun col '(freq_tables, table_discussions) =>
             freq ← reset_index (fst col) (value_counts (snd col));
             let rows := percent_rows freq total_n in
             d ← ai_generate_discussion
                   ("Table C. Frequency Distribution of " +:+ fst col)
                   "This table presents the distribution of categorical responses."
                   (FreqRows rows);
             mret (freq_tables ++ [(fst col, rows)],
                   table_discussions
                     ++ [("Table C. Frequency Distribution of " +:+ fst col, d)]))
          ([], table_discussions);
      (* correlation *)
      '(corr_cols, corr_rows, table_discussions) ←
        (if Nat.ltb 1 (length numeric) then
           let corr := corr_round numeric 3 in
           d ← ai_generate_discussion "Correlation Matrix"
                 "This matrix shows relationships between numeric variables."
                 (CorrRows corr);
           mret (Some (map fst numeric), Some corr,
                 table_discussions ++ [("Correlation Matrix", d)])
         else mret (None, None, table_discussions));
      (* t-test *)
      let ttest_results := ttests numeric in
      table_discussions ←
        (match ttest_results with
         | _ :: _ =>
             d ← ai_generate_discussion "T-Test Results"
                   "This table presents independent sample t-test results."
                   (TTests ttest_results);
             mret (table_discussions ++ [("T-Test Results", d)])
         | [] => mret table_discussions
         end);
      (* session *)
      let report_data :=
        {| title := cleaned_title form;
           objective := cleaned_objective form;
           problem := cleaned_problem form;
           total_n := total_n;
           raw_cols := raw_cols;
           raw_data := raw_data;
           stats_table := stats_table;
           freq_tables := freq_tables;
           corr_cols := corr_cols;
           corr_rows := corr_rows;
           ttest_results := ttest_results;
           table_discussions := table_discussions |} in
      session_set "report_data" report_data;;
      mret (Some (render "results.html" (ReportContext report_data)))
  else mret None.

Definition export_word (request : HttpRequest) : M HttpResponse :=
  data ← session_get "report_data";
  match data with
  | None =>
      mret {| content_type := None; headers := []; body := Text "No data available." |}
  | Some data =>
      let doc := [] in
      let doc := add_heading doc (title data) 1 in
      let doc := add_paragraph doc ("Objective: " +:+ objective data) in
      let doc := add_paragraph doc ("Problem: " +:+ problem data) in
      let doc := add_paragraph doc ("Respondents: " +:+ str_nat (total_n data)) in
      let doc := add_heading doc "Discussion of Results" 1 in
      let doc :=
        fold_left (fun doc td => add_paragraph (add_heading doc (fst td) 2) (snd td))
                  (table_discussions data) doc in
      mret {| content_type := Some docx_mime;
              headers := [("Content-Disposition",
                           "attachment; filename=Research_Report.docx")];
              body := Docx doc |}
  end.

End Views.

(** ** The run of [analyze], table by table *)

Section Run.

Variable agg : list (option Q) -> float64 * float64.
Variable ttest_ind : list Q -> list Q -> float64 * float64.
Variable service : nat -> prompt -> reply.

(** An analysis table as it is handed to the annotator: title,
    description, content. *)
Definition table : Type := (string * string * table_data)%type.

Definition prompt_of (t : table) : prompt :=
  {| model := "gpt-4.1-mini";
     prompt_title := fst (fst t);
     prompt_description := snd (fst t);
     prompt_table := snd t |}.

(** The discussion of table [t] when its request is the one numbered [k]. *)
Definition answer (k : nat) (t : table) : string :=
  match service k (prompt_of t) with
  | Completion output_text => strip output_text
  | Failure _ => fallback
  end.

Definition complaint (k : nat) (t : table) : list string :=
  match service k (prompt_of t) with
  | Completion _ => []
  | Failure message => ["OPENAI ERROR: " +:+ message]
  end.

(** The world after the annotator has handled table [t]. *)
Definition asked (t : table) (w : world) : world :=
  {| session := session w;
     stdout := stdout w ++ complaint (requests w) t;
     requests := S (requests w) |}.

(** The tables annotated one after the other, from world [w]. *)
Fixpoint discuss (ts : list table) (w : world) : list (string * string) * world :=
  match ts with
  | [] => ([], w)
  | t :: rest =>
      let r := discuss rest (asked t w) in
      ((fst (fst t), answer (requests w) t) :: fst r, snd r)
  end.

Definition stats_of (numeric : list (string * list (option Q)))
  : list (string * float64 * float64) :=
  map (fun c => (fst c, fst (agg (snd c)), snd (agg (snd c)))) numeric.

Definition freq_table_of (total : nat) (col : string * list (option string)) : table :=
  ("Table C. Frequency Distribution of " +:+ fst col,
   "This table presents the distribution of categorical responses.",
   FreqRows (frequency_rows (snd col) total)).

(** The tables [analyze] has discussed when it returns its page, in the
    order of the calls. *)
Definition tables (df : DataFrame) : list table :=
  let numeric := select_number df in
  [("Table A. Raw Data",
    "This table presents the raw responses of all respondents.",
    RawData (values_tolist df))]
  ++ (if negb (empty numeric (index df))
      then [("Table B. Statistical Summary",
             "This table summarizes central tendency and variability.",
             StatsTable (stats_of numeric))]
      else [])
  ++ map (freq_table_of (index df)) (select_other df)
  ++ (if Nat.ltb 1 (length numeric)
      then [("Correlation Matrix",
             "This matrix shows relationships between numeric variables.",
             CorrRows (corr_round numeric 3))]
      else [])
  ++ (match ttests ttest_ind numeric with
      | [] => []
      | _ :: _ => [("T-Test Results",
                    "This table presents independent sample t-test results.",
                    TTests (ttests ttest_ind numeric))]
      end).

Definition report_of (f : UploadForm) (df : DataFrame) (w : world) : Report :=
  let numeric := select_number df in
  {| title := cleaned_title f;
     objective := cleaned_objective f;
     problem := cleaned_problem f;
     total_n := index df;
     raw_cols := map label (columns df);
     raw_data := values_tolist df;
     stats_table := if negb (empty numeric (index df)) then stats_of numeric else [];
     freq_tables :=
       map (fun col => (fst col, frequency_rows (snd col) (index df))) (select_other df);
     corr_cols := if Nat.ltb 1 (length numeric) then Some (map fst numeric) else None;
     corr_rows := if Nat.ltb 1 (length numeric) then Some (corr_round numeric 3) else None;
     ttest_results := ttests ttest_ind numeric;
     table_discussions := fst (discuss (tables df) w) |}.

Definition stored (r : Report) (w : world) : world :=
  {| session := <["report_data" := r]> (session w);
     stdout := stdout w;
     requests := requests w |}.

(** The columns that come before the first one labelled "count". *)
Fixpoint before_count {A} (cats : list (string * A)) : list (string * A) :=
  match cats with
  | [] => []
  | col :: rest =>
      if String.eqb (fst col) "count" then [] else col :: before_count rest
  end.

(** The tables [analyze] has discussed when line 97 raises. *)
Definition tables_before_count (df : DataFrame) : list table :=
  let numeric := select_number df in
  [("Table A. Raw Data",
    "This table presents the raw responses of all respondents.",
    RawData (values_tolist df))]
  ++ (if negb (empty numeric (index df))
      then [("Table B. Statistical Summary",
             "This table summarizes central tendency and variability.",
             StatsTable (stats_of numeric))]
      else [])
  ++ map (freq_table_of (index df)) (before_count (select_other df)).

End Run.

(** No column labelled "count" among the columns that are counted. *)
Definition count_free {A} (cats : list (string * A)) : bool :=
  forallb (fun col => negb (String.eqb (fst col) "count")) cats.

(** ** Vocabulary of the statements *)

(** The index pairs visited by the nested loops of lines 131-132. *)
Definition pairs (k : nat) : list (nat * nat) :=
  flat_map (fun i => map (pair i) (range (i + 1) k)) (range 0 k).

(** Lexicographic order on index pairs: the order of the nested loops. *)
Definition lex (p q : nat * nat) : Prop :=
  fst p < fst q \/ (fst p = fst q /\ snd p < snd q).

(** The entry appended for the index pair [(i, j)] (lines 133-143). *)
Definition ttest_of (ttest_ind : list Q -> list Q -> float64 * float64)
    (numeric : list (string * list (option Q))) (ij : nat * nat) : TTest :=
  let tp := ttest_ind (dropna (nth (fst ij) (map snd numeric) []))
                      (dropna (nth (snd ij) (map snd numeric) [])) in
  {| var1 := nth (fst ij) (map fst numeric) "";
     var2 := nth (snd ij) (map fst numeric) "";
     t_stat := round (fst tp) 4;
     p_val := round (snd tp) 4 |}.

(** Position of the first cell of [vals] holding [k] (the length of [vals]
    when there is none). *)
Fixpoint first_seen (k : option string) (vals : list (option string)) : nat :=
  match vals with
  | [] => 0
  | v :: rest => if bool_decide (k = v) then 0 else S (first_seen k rest)
  end.

(** The number of cells of [vals] holding [k]. *)
Definition occurrences (k : option string) (vals : list (option string)) : nat :=
  length (List.filter (fun v => bool_decide (v = k)) vals).

(** The count recorded for [k] in a table of counts. *)
Fixpoint recorded (k : option string) (tbl : list (option string * nat)) : nat :=
  match tbl with
  | [] => 0
  | (k', n) :: rest => if bool_decide (k = k') then n else recorded k rest
  end.

(** [x] comes before [y] in a frequency table of the column [vals]: a larger
    count, or the same count and a value first seen earlier. *)
Definition ranked (vals : list (option string)) (x y : option string * nat) : Prop :=
  snd y < snd x
  \/ (snd x = snd y /\ first_seen (fst x) vals < first_seen (fst y) vals).

(** The number a float stands for (0 for NaN and the infinities). *)
Definition float_value (x : float64) : Q :=
  match x with Fin q => q | _ => 0%Q end.

(** The sum of the Percent column of a frequency table. *)
Definition percent_total (rows : list FrequencyRow) : Q :=
  qsum (map (fun row => float_value (Percent row)) rows).

(** A count as a rational. *)
Definition nat_q (n : nat) : Q := inject_Z (Z.of_nat n).

(** All the values present in a numeric column are equal (none or one value
    included): the column has no variance. *)
Definition constant (vals : list (option Q)) : bool :=
  match dropna vals with
  | [] => true
  | x :: rest => forallb (Qeq_bool x) rest
  end.

(** A pair with its components exchanged. *)
Definition swap {A B} (p : A * B) : B * A := (snd p, fst p).

(** ** The upload page and the routes (urls.py) *)

(** [UploadForm()]: the form without data; it is not valid and nothing of
    it has been cleaned. *)
Definition unbound : UploadForm :=
  {| is_valid := false;
     cleaned_title := "";
     cleaned_objective := "";
     cleaned_problem := "" |}.

Module views.

(** Lines 47-48 of views.py. *)
Definition index (request : HttpRequest) : M HttpResponse :=
  mret (render "index.html" (FormContext unbound)).

End views.

(** A view as the resolver calls it; a view that falls off its end answers
    [None]. *)
Definition view : Type := HttpRequest -> M (option HttpResponse).

(** [path(route, view, name=...)] *)
Record URLPattern : Type :=
  { pattern_route : string; pattern_view : view; pattern_name : string }.

Definition path (route : string) (v : view) (name : string) : URLPattern :=
  {| pattern_route := route; pattern_view := v; pattern_name := name |}.

(** The resolver on routes without converters: the first pattern whose
    route is the requested path (taken after the mount point of the
    application), and the route of the first pattern of a given name. *)
Definition resolve (patterns : list URLPattern) (url : string) : option URLPattern :=
  List.find (fun p => String.eqb (pattern_route p) url) patterns.

Definition reverse (patterns : list URLPattern) (name : string) : option string :=
  option_map pattern_route
    (List.find (fun p => String.eqb (pattern_name p) name) patterns).

Section Urls.

Variable agg : list (option Q) -> float64 * float64.
Variable ttest_ind : list Q -> list Q -> float64 * float64.
Variable service : nat -> prompt -> reply.

Definition urlpatterns : list URLPattern :=
  [ path "" (fun request => response ← views.index request; mret (Some response)) "index";
    path "analyze/" (analyze agg ttest_ind service) "analyze";
    path "export-word/"
         (fun request => response ← export_word request; mret (Some response))
         "export_word" ].

End Urls.


(** ** Sample inputs *)

(** An empty world, a form, and a service that is down. *)
Definition fresh : world := {| session := ∅; stdout := []; requests := 0 |}.

Definition sample_form : UploadForm :=
  {| is_valid := true;
     cleaned_title := "Survey";
     cleaned_objective := "Describe the answers";
     cleaned_problem := "What do respondents say?" |}.

Definition offline (k : nat) (p : prompt) : reply := Failure "Connection error.".

Definition post (df : DataFrame) : HttpRequest :=
  {| method := "POST"; form := sample_form; file := Workbook df |}.

Definition get : HttpRequest :=
  {| method := "GET"; form := sample_form; file := Unreadable "no file" |}.

(** The answer of [stats.ttest_ind] on two samples without variance and of
    equal mean: NaN for the statistic and for the p-value.  It also serves as
    some test routine where an example needs one. *)
Definition degenerate_ttest (a b : list Q) : float64 * float64 := (NaN, NaN).

(** The answer of [agg] on the column 10, 20, 30: mean 20.0 and deviation
    10.0.  It also serves as some routine where an example needs one. *)
Definition score_agg (vals : list (option Q)) : float64 * float64 := (Fin 20, Fin 10).

(** The answer of [agg] on the column 5, 5, 5: mean 5.0 and deviation 0.0. *)
Definition flat_agg (vals : list (option Q)) : float64 * float64 := (Fin 5, Fin 0).

(** Three respondents, one numeric and one categorical column. *)
Definition survey : DataFrame :=
  {| index := 3;
     columns := [ {| label := "Score"; data := Numeric [Some 10%Q; Some 20%Q; Some 30%Q] |};
                  {| label := "Group"; data := Object [Some "A"; Some "A"; Some "B"] |} ] |}.

(** Three respondents, three different answers. *)
Definition thirds : DataFrame :=
  {| index := 3;
     columns := [ {| label := "Answer"; data := Object [Some "A"; Some "B"; Some "C"] |} ] |}.

Definition thirds_report : Report :=
  report_of score_agg degenerate_ttest offline sample_form thirds fresh.

(** Each of the three answers at 33.33, the float64 nearest to it. *)
Definition thirds_rows : list FrequencyRow :=
  [ {| Category := Some "A"; Frequency := 1; Percent := fl (3333 # 100) |};
    {| Category := Some "B"; Frequency := 1; Percent := fl (3333 # 100) |};
    {| Category := Some "C"; Frequency := 1; Percent := fl (3333 # 100) |} ].

(** A service that answers every request, with blanks around its text. *)
Definition chatty (k : nat) (p : prompt) : reply :=
  Completion ("  On " +:+ prompt_title p +:+ ": nothing unusual.  ").

(** A service that answers every request but the second. *)
Definition quota (k : nat) (p : prompt) : reply :=
  if Nat.eqb k 1 then Failure "Rate limit reached." else chatty k p.

(** Three numeric columns and a categorical one with a blank cell. *)
Definition scores : DataFrame :=
  {| index := 4;
     columns :=
       [ {| label := "Age"; data := Numeric [Some 21%Q; Some 34%Q; None; Some 52%Q] |};
         {| label := "Town"; data := Object [Some "Cebu"; None; Some "Davao"; Some "Cebu"] |};
         {| label := "Income"; data := Numeric [Some 12%Q; Some (31 # 2)%Q; Some 9%Q; Some 20%Q] |};
         {| label := "Rating"; data := Numeric [Some 3%Q; Some 3%Q; Some 3%Q; Some 3%Q] |} ] |}.

(** Three respondents who all gave the same two numbers: no column has any
    variance, and the two samples have the same mean. *)
Definition flat : DataFrame :=
  {| index := 3;
     columns := [ {| label := "X"; data := Numeric [Some 5%Q; Some 5%Q; Some 5%Q] |};
                  {| label := "Y"; data := Numeric [Some 5%Q; Some 5%Q; Some 5%Q] |} ] |}.

Definition flat_report : Report :=
  report_of flat_agg degenerate_ttest offline sample_form flat fresh.

(** A submission that lacks two of its fields, with a file that is no
    workbook. *)
Definition incomplete : HttpRequest :=
  {| method := "POST";
     form := {| is_valid := false;
                cleaned_title := "Survey";
                cleaned_objective := "";
                cleaned_problem := "" |};
     file := Unreadable "File is not a zip file" |}.

(** A complete submission with a file that is no workbook. *)
Definition garbled : HttpRequest :=
  {| method := "POST"; form := sample_form; file := Unreadable "File is not a zip file" |}.

(** A sheet with its header row and no data row. *)
Definition header_only : DataFrame :=
  {| index := 0;
     columns := [ {| label := "Score"; data := Object [] |};
                  {| label := "Group"; data := Object [] |} ] |}.

(** Two respondents and a column of answers under the header "count". *)
Definition counted : DataFrame :=
  {| index := 2;
     columns := [ {| label := "Score"; data := Numeric [Some 1%Q; Some 2%Q] |};
                  {| label := "Town"; data := Object [Some "Cebu"; Some "Davao"] |};
                  {| label := "count"; data := Object [Some "one"; Some "two"] |};
                  {| label := "Group"; data := Object [Some "A"; Some "B"] |} ] |}.

(** ** The definitions at sample values *)

Example fl_ex :
  fl (1 # 10) = Fin (3602879701896397 # 36028797018963968)
  /\ fl 9007199254740993 = Fin 9007199254740992
  /\ fl (pow2 (-1075)) = Fin 0
  /\ fl (pow2 1024 - pow2 970) = Inf false.
Proof. repeat split; vm_compute; reflexivity. Qed.

Example round_ex :
  round (Fin (5 # 2)) 0 = Fin 2
  /\ round (fl (2675 # 1000)) 2 = fl (268 # 100)
  /\ round NaN 4 = NaN.
Proof. repeat split; vm_compute; reflexivity. Qed.

Example percent_of_ex :
  percent_of 2 3 = fl (6667 # 100)
  /\ percent_of 23 160 = fl (1437 # 100)
  /\ percent_of 3 3 = Fin 100.
Proof. repeat split; vm_compute; reflexivity. Qed.

Example round_sqrt_ex : round_sqrt 1 2 3 = 707 # 500 /\ round_sqrt (-1) (1 # 4) 3 = -1 # 2.
Proof. split; reflexivity. Qed.

Example strip_ex :
  strip "  città  " = "città"
  /\ strip (String (ascii_of_nat 194) (String (ascii_of_nat 160) "à la carte")
            +:+ String (ascii_of_nat 226) (String (ascii_of_nat 128)
                  (String (ascii_of_nat 137) EmptyString)))
     = "à la carte"
  /\ strip (String (ascii_of_nat 9) (String (ascii_of_nat 10) " ")) = "".
Proof. repeat split; vm_compute; reflexivity. Qed.

Example value_counts_ex :
  value_counts [Some "B"; Some "A"; None; Some "A"; Some "C"; None]
  = [(Some "A", 2); (None, 2); (Some "B", 1); (Some "C", 1)].
Proof. reflexivity. Qed.

Example pearson_ex :
  pearson_round [Some 1%Q; Some 2%Q; Some 3%Q] [Some 2%Q; None; Some 1%Q] 3 = Fin (-1)
  /\ pearson_round [Some 1%Q; Some 2%Q; Some 4%Q] [Some 1%Q; Some 3%Q; Some 2%Q] 3 = Fin (327 # 1000)
  /\ pearson_round [Some 5%Q; Some 5%Q] [Some 1%Q; Some 2%Q] 3 = NaN.
Proof. repeat split; reflexivity. Qed.

(** The report of the three-respondent table: one summary row, one
    frequency table, no correlation matrix, no test, three discussions. *)
Example survey_ex :
  let r := report_of score_agg degenerate_ttest offline sample_form survey fresh in
  total_n r = 3
  /\ stats_table r = [("Score", Fin 20, Fin 10)]
  /\ freq_tables r
     = [("Group",
         [ {| Category := Some "A"; Frequency := 2; Percent := fl (6667 # 100) |};
           {| Category := Some "B"; Frequency := 1; Percent := fl (3333 # 100) |} ])]
  /\ corr_cols r = None
  /\ corr_rows r = None
  /\ ttest_results r = []
  /\ map fst (table_discussions r)
     = ["Table A. Raw Data"; "Table B. Statistical Summary";
        "Table C. Frequency Distribution of Group"].
Proof. repeat split; vm_compute; reflexivity. Qed.

(** ** Lemmas on the run *)

Section RunFacts.

Variable agg : list (option Q) -> float64 * float64.
Variable ttest_ind : list Q -> list Q -> float64 * float64.
Variable service : nat -> prompt -> reply.

Lemma ai_generate_discussion_run (title description : string) (x : table_data) (w : world) :
  ai_generate_discussion service title description x w
  = (Return (answer service (requests w) (title, description, x)),
     asked service (title, description, x) w).
Proof.
  unfold ai_generate_discussion, try_except, responses_create, answer, asked, complaint.
  unfold mbind, M_bind, bind, mret, M_ret, ret, prompt_of.
  cbn [fst snd].
  destruct (service (requests w) _) as [txt | msg]; simpl.
  - now rewrite app_nil_r.
  - reflexivity.
Qed.

Lemma discuss_app (ts us : list table) (w : world) :
  discuss service (ts ++ us) w
  = (fst (discuss service ts w) ++ fst (discuss service us (snd (discuss service ts w))),
     snd (discuss service us (snd (discuss service ts w)))).
Proof.
  revert w; induction ts as [| t ts IH]; intros w; simpl.
  - now destruct (discuss service us w).
  - now rewrite IH.
Qed.

Lemma count_free_before {A} (cats : list (string * A)) :
  count_free cats = true -> before_count cats = cats.
Proof.
  induction cats as [| col cats IH]; simpl; [reflexivity |].
  destruct (String.eqb (fst col) "count"); simpl; [discriminate |].
  intros H. now rewrite IH.
Qed.

Ltac run_bind := unfold mbind at 1, M_bind at 1, bind at 1.

(** The loop of lines 96-110: it goes through every column, or stops at the
    first one labelled "count". *)
Lemma frequency_loop (total : nat) (cats : list (string * list (option string)))
      (ft : list (string * list FrequencyRow)) (td : list (string * string)) (w : world) :
  for_each cats
    (fun col '(freq_tables, table_discussions) =>
       freq ← reset_index (fst col) (value_counts (snd col));
       let rows := percent_rows freq total in
       d ← ai_generate_discussion service
             ("Table C. Frequency Distribution of " +:+ fst col)
             "This table presents the distribution of categorical responses."
             (FreqRows rows);
       mret (freq_tables ++ [(fst col, rows)],
             table_discussions
               ++ [("Table C. Frequency Distribution of " +:+ fst col, d)]))
    (ft, td) w
  = if count_free cats
    then (Return (ft ++ map (fun col => (fst col, frequency_rows (snd col) total)) cats,
                  td ++ fst (discuss service (map (freq_table_of total) cats) w)),
          snd (discuss service (map (freq_table_of total) cats) w))
    else (Raise (Exception "cannot insert count, already exists"),
          snd (discuss service (map (freq_table_of total) (before_count cats)) w)).
Proof.
  revert ft td w; induction cats as [| col cats IH]; intros ft td w.
  - simpl. now rewrite !app_nil_r.
  - cbn [for_each count_free forallb before_count].
    run_bind. run_bind. unfold reset_index.
    destruct (String.eqb (fst col) "count"); cbn [negb andb].
    + reflexivity.
    + cbn [mret M_ret ret]. run_bind.
      rewrite ai_generate_discussion_run.
      cbn [mret M_ret ret].
      rewrite IH. fold (count_free cats). unfold frequency_rows.
      destruct (count_free cats); cbn [map discuss fst snd];
        rewrite <- ?app_assoc; reflexivity.
Qed.

(** The run that returns the page. *)
Lemma analyze_post (request : HttpRequest) (df : DataFrame) (w : world) :
  method request = "POST" ->
  is_valid (form request) = true ->
  file request = Workbook df ->
  count_free (select_other df) = true ->
  let r := report_of agg ttest_ind service (form request) df w in
  analyze agg ttest_ind service request w
  = (Return (Some (render "results.html" (ReportContext r))),
     stored r (snd (discuss service (tables agg ttest_ind df) w))).
Proof.
  intros Hm Hv Hf Hc r. subst r.
  unfold analyze. rewrite Hm, Hv, Hf, String.eqb_refl. cbn [negb read_excel].
  unfold report_of, tables, stats_of.
  run_bind; cbn [mret M_ret ret].
  destruct (negb (empty (select_number df) (index df)));
    destruct (Nat.ltb 1 (length (select_number df)));
    destruct (ttests ttest_ind (select_number df)) as [| t0 ts0];
    rewrite !discuss_app; cbn [fst snd discuss app];
    repeat (run_bind;
            rewrite ?ai_generate_discussion_run, ?frequency_loop, ?Hc;
            cbn [mret M_ret ret fst snd discuss app]).
  all: unfold session_set, stored; cbn [app]; rewrite <- ?app_assoc; cbn [app];
    rewrite ?app_nil_r; reflexivity.
Qed.

(** The run that line 97 stops. *)
Lemma analyze_count (request : HttpRequest) (df : DataFrame) (w : world) :
  method request = "POST" ->
  is_valid (form request) = true ->
  file request = Workbook df ->
  count_free (select_other df) = false ->
  analyze agg ttest_ind service request w
  = (Raise (Exception "cannot insert count, already exists"),
     snd (discuss service (tables_before_count agg df) w)).
Proof.
  intros Hm Hv Hf Hc.
  unfold analyze. rewrite Hm, Hv, Hf, String.eqb_refl. cbn [negb read_excel].
  unfold tables_before_count, stats_of.
  run_bind; cbn [mret M_ret ret].
  destruct (negb (empty (select_number df) (index df)));
    rewrite !discuss_app; cbn [fst snd discuss app];
    repeat (run_bind;
            rewrite ?ai_generate_discussion_run, ?frequency_loop, ?Hc;
            cbn [mret M_ret ret fst snd discuss app]).
  all: reflexivity.
Qed.

(** The five ways through [analyze]. *)
Lemma analyze_run (request : HttpRequest) (w : world) :
  analyze agg ttest_ind service request w
  = if negb (String.eqb (method request) "POST") then (Return None, w)
    else if negb (is_valid (form request))
         then (Return (Some (render "index.html" (FormContext (form request)))), w)
         else match file request with
              | Unreadable message => (Raise (Exception message), w)
              | Workbook df =>
                  if count_free (select_other df)
                  then (Return (Some (render "results.html"
                                        (ReportContext
                                           (report_of agg ttest_ind service
                                              (form request) df w)))),
                        stored (report_of agg ttest_ind service (form request) df w)
                               (snd (discuss service (tables agg ttest_ind df) w)))
                  else (Raise (Exception "cannot insert count, already exists"),
                        snd (discuss service (tables_before_count agg df) w))
              end.
Proof.
  destruct (String.eqb_spec (method request) "POST") as [Hm | Hm]; cbn [negb].
  - destruct (is_valid (form request)) eqn:Hv; cbn [negb].
    + destruct (file request) as [df | message] eqn:Hf.
      * destruct (count_free (select_other df)) eqn:Hc.
        -- exact (analyze_post request df w Hm Hv Hf Hc).
        -- exact (analyze_count request df w Hm Hv Hf Hc).
      * unfold analyze. rewrite Hm, Hv, Hf. reflexivity.
    + unfold analyze. rewrite Hm, Hv. reflexivity.
  - unfold analyze. destruct (String.eqb_spec (method request) "POST"); [contradiction |].
    reflexivity.
Qed.

(** A run that returns a page for a readable workbook: the page is the
    results page of the report, the report is stored, and no column that is
    counted is labelled "count". *)
Lemma analyze_returns (request : HttpRequest) (df : DataFrame) (w w' : world)
      (page : HttpResponse) :
  method request = "POST" ->
  is_valid (form request) = true ->
  file request = Workbook df ->
  analyze agg ttest_ind service request w = (Return (Some page), w') ->
  count_free (select_other df) = true
  /\ page = render "results.html"
              (ReportContext (report_of agg ttest_ind service (form request) df w))
  /\ w' = stored (report_of agg ttest_ind service (form request) df w)
                 (snd (discuss service (tables agg ttest_ind df) w)).
Proof.
  intros Hm Hv Hf E. rewrite analyze_run, Hm, Hv, Hf in E.
  cbn [String.eqb Ascii.eqb Bool.eqb negb] in E.
  destruct (count_free (select_other df)); [| discriminate].
  injection E as <- <-. auto.
Qed.

Lemma discuss_titles (ts : list table) (w : world) :
  map fst (fst (discuss service ts w)) = map (fun t => fst (fst t)) ts.
Proof.
  revert w; induction ts as [| t ts IH]; intros w; simpl; [reflexivity |].
  now rewrite IH.
Qed.

Lemma discuss_length (ts : list table) (w : world) :
  length (fst (discuss service ts w)) = length ts.
Proof.
  rewrite <- (length_map fst), discuss_titles. apply length_map.
Qed.

Lemma discuss_session (ts : list table) (w : world) :
  session (snd (discuss service ts w)) = session w.
Proof.
  revert w; induction ts as [| t ts IH]; intros w; simpl; [reflexivity |].
  now rewrite IH.
Qed.

Lemma discuss_requests (ts : list table) (w : world) :
  requests (snd (discuss service ts w)) = requests w + length ts.
Proof.
  revert w; induction ts as [| t ts IH]; intros w; simpl; [lia |].
  rewrite IH. simpl. lia.
Qed.

(** The discussion at position [i] is the answer to request
    [requests w + i], asked about the table at position [i]. *)
Lemma discuss_lookup (ts : list table) (w : world) (i : nat) (t : table) :
  ts !! i = Some t ->
  fst (discuss service ts w) !! i
  = Some (fst (fst t), answer service (requests w + i) t).
Proof.
  revert w i; induction ts as [| u ts IH]; intros w i H; [discriminate |].
  destruct i as [| i]; simpl in *.
  - injection H as ->. now rewrite Nat.add_0_r.
  - rewrite (IH _ _ H). simpl. do 3 f_equal. lia.
Qed.

End RunFacts.

(** ** The export handler *)

Lemma add_blocks (tds : list (string * string)) (doc : list block) :
  fold_left (fun doc td => add_paragraph (add_heading doc (fst td) 2) (snd td)) tds doc
  = doc ++ flat_map (fun td => [Heading (fst td) 2; Paragraph (snd td)]) tds.
Proof.
  revert doc; induction tds as [| td tds IH]; intros doc; simpl.
  - now rewrite app_nil_r.
  - rewrite IH. unfold add_paragraph, add_heading.
    now rewrite <- !app_assoc.
Qed.

(** C6: without a stored report the export answers the text "No data
    available." and no attachment; with a stored report it answers an
    attachment named Research_Report.docx, of the word-processing MIME type,
    whose document ends with one level-2 heading and one paragraph per stored
    discussion, in the stored order; and when the world is the one left by an
    analysis that returned its page, the page is the results page of a report
    and that report is the one stored. *)
Theorem export_word_response (request : HttpRequest) (w : world) :
  (session w !! "report_data" = None ->
   fst (export_word request w)
   = Return {| content_type := None; headers := []; body := Text "No data available." |})
  /\ (forall data : Report,
        session w !! "report_data" = Some data ->
        fst (export_word request w)
        = Return
            {| content_type :=
                 Some "application/vnd.openxmlformats-officedocument.wordprocessingml.document";
               headers :=
                 [("Content-Disposition", "attachment; filename=Research_Report.docx")];
               body :=
                 Docx ([Heading (title data) 1;
                        Paragraph ("Objective: " +:+ objective data);
                        Paragraph ("Problem: " +:+ problem data);
                        Paragraph ("Respondents: " +:+ str_nat (total_n data));
                        Heading "Discussion of Results" 1]
                       ++ flat_map (fun td => [Heading (fst td) 2; Paragraph (snd td)])
                            (table_discussions data)) |})
  /\ (forall (agg : list (option Q) -> float64 * float64)
             (ttest_ind : list Q -> list Q -> float64 * float64)
             (service : nat -> prompt -> reply)
             (upload : HttpRequest) (df : DataFrame) (w0 : world)
             (page : HttpResponse),
        method upload = "POST" ->
        is_valid (form upload) = true ->
        file upload = Workbook df ->
        analyze agg ttest_ind service upload w0 = (Return (Some page), w) ->
        exists data : Report,
          page = render "results.html" (ReportContext data)
          /\ session w !! "report_data" = Some data).
Proof.
  split; [| split].
  - unfold export_word, session_get, mbind, M_bind, bind, mret, M_ret, ret.
    intros ->. reflexivity.
  - unfold export_word, session_get, mbind, M_bind, bind, mret, M_ret, ret.
    intros data ->. cbn [fst]. rewrite add_blocks. reflexivity.
  - intros agg ttest_ind service upload df w0 page Hm Hv Hf E.
    destruct (analyze_returns _ _ _ _ _ _ _ _ Hm Hv Hf E) as (_ & -> & ->).
    eexists. split; [reflexivity |]. apply lookup_insert_eq.
Qed.

(** C9: the export leaves the world as it found it: the stored report is
    still there, and a second export answers what the first one did. *)
Theorem export_word_read_only (request : HttpRequest) (w : world) :
  snd (export_word request w) = w
  /\ session (snd (export_word request w)) !! "report_data" = session w !! "report_data"
  /\ export_word request (snd (export_word request w)) = export_word request w.
Proof.
  assert (H : snd (export_word request w) = w).
  { unfold export_word, session_get, mbind, M_bind, bind, mret, M_ret, ret.
    now destruct (session w !! "report_data"). }
  now rewrite H.
Qed.

(** ** The analyze handler, request method *)

(** C10: a request whose method is not POST gets no response object from
    [analyze]: the handler returns None and changes nothing. *)
Theorem analyze_not_post (agg : list (option Q) -> float64 * float64)
        (ttest_ind : list Q -> list Q -> float64 * float64)
        (service : nat -> prompt -> reply) (request : HttpRequest) (w : world) :
  method request <> "POST" ->
  analyze agg ttest_ind service request w = (Return None, w).
Proof.
  intros H. unfold analyze.
  destruct (String.eqb_spec (method request) "POST") as [E | _]; [contradiction |].
  reflexivity.
Qed.

Lemma analyze_not_post_witness :
  analyze (fun _ => (NaN, NaN)) (fun _ _ => (NaN, NaN)) offline get fresh
  = (Return None, fresh).
Proof.
  apply analyze_not_post. discriminate.
Defined.

(** ** The pairs of numeric columns *)

Lemma in_pairs (k i j : nat) : In (i, j) (pairs k) <-> i < j < k.
Proof.
  unfold pairs, range. rewrite in_flat_map. split.
  - intros (x & Hx & H). apply in_map_iff in H as (y & [= <- <-] & Hy).
    apply in_seq in Hx, Hy. lia.
  - intros H. exists i. split; [apply in_seq; lia |].
    apply in_map_iff. exists j. split; [reflexivity | apply in_seq; lia].
Qed.

Lemma pairs_length_from (k a n : nat) :
  a + n = k ->
  2 * length (flat_map (fun i => map (pair i) (range (i + 1) k)) (seq a n)) = n * (n - 1).
Proof.
  revert a; induction n as [| n IH]; intros a H; [reflexivity |].
  cbn [seq flat_map]. rewrite length_app, length_map. unfold range at 1.
  rewrite length_seq. specialize (IH (S a) ltac:(lia)).
  replace (k - (a + 1)) with n by lia. nia.
Qed.

Lemma pairs_length (k : nat) : length (pairs k) = k * (k - 1) / 2.
Proof.
  unfold pairs, range. rewrite Nat.sub_0_r.
  rewrite <- (pairs_length_from k 0 k eq_refl).
  now rewrite Nat.mul_comm, Nat.div_mul.
Qed.

Lemma NoDup_pairs_from (k a n : nat) :
  NoDup (flat_map (fun i => map (pair i) (range (i + 1) k)) (seq a n)).
Proof.
  revert a; induction n as [| n IH]; intros a; [constructor |].
  cbn [seq flat_map]. apply NoDup_app. split; [| split].
  - apply NoDup_fmap_2; [intros x y [= ->]; reflexivity | apply NoDup_seq].
  - intros [i j] H1 H2. apply list_elem_of_In in H1, H2.
    apply in_map_iff in H1 as (y & [= <- <-] & _).
    apply in_flat_map in H2 as (x & Hx & H2).
    apply in_map_iff in H2 as (z & [= -> _] & _). apply in_seq in Hx. lia.
  - apply IH.
Qed.

Lemma NoDup_pairs (k : nat) : NoDup (pairs k).
Proof. apply NoDup_pairs_from. Qed.

Lemma sorted_seq_pairs (i a n : nat) : StronglySorted lex (map (pair i) (seq a n)).
Proof.
  revert a; induction n as [| n IH]; intros a; simpl; constructor; [apply IH |].
  apply List.Forall_forall. intros q H. apply in_map_iff in H as (y & <- & Hy).
  apply in_seq in Hy. right. simpl. lia.
Qed.

Lemma StronglySorted_app_lex (l1 l2 : list (nat * nat)) :
  StronglySorted lex l1 -> StronglySorted lex l2 ->
  (forall p q, In p l1 -> In q l2 -> lex p q) ->
  StronglySorted lex (l1 ++ l2).
Proof.
  intros H1 H2 H. induction H1 as [| p l1 H1 IH Hp]; simpl; [assumption |].
  constructor.
  - apply IH. intros; apply H; [now right | assumption].
  - apply List.Forall_app. split; [assumption |].
    apply List.Forall_forall. intros q Hq. apply H; [now left | assumption].
Qed.

Lemma sorted_pairs_from (k a n : nat) :
  StronglySorted lex (flat_map (fun i => map (pair i) (range (i + 1) k)) (seq a n)).
Proof.
  revert a; induction n as [| n IH]; intros a; [constructor |].
  cbn [seq flat_map]. apply StronglySorted_app_lex; [apply sorted_seq_pairs | apply IH |].
  intros p q Hp Hq.
  apply in_map_iff in Hp as (y & <- & _).
  apply in_flat_map in Hq as (x & Hx & Hq).
  apply in_map_iff in Hq as (z & <- & _). apply in_seq in Hx. left. simpl. lia.
Qed.

Lemma sorted_pairs (k : nat) : StronglySorted lex (pairs k).
Proof. apply sorted_pairs_from. Qed.

Section PairwiseFacts.

Variable ttest_ind : list Q -> list Q -> float64 * float64.

Lemma ttests_pairs (numeric : list (string * list (option Q))) :
  ttests ttest_ind numeric = map (ttest_of ttest_ind numeric) (pairs (length numeric)).
Proof.
  unfold ttests, pairs. rewrite length_map.
  generalize (range 0 (length numeric)) as l.
  induction l as [| i l IH]; simpl; [reflexivity |].
  rewrite map_app, map_map, IH. reflexivity.
Qed.

Lemma ttest_of_lookup (numeric : list (string * list (option Q))) (i j : nat)
      (a b : string) (xs ys : list (option Q)) :
  numeric !! i = Some (a, xs) ->
  numeric !! j = Some (b, ys) ->
  ttest_of ttest_ind numeric (i, j)
  = {| var1 := a;
       var2 := b;
       t_stat := round (fst (ttest_ind (dropna xs) (dropna ys))) 4;
       p_val := round (snd (ttest_ind (dropna xs) (dropna ys))) 4 |}.
Proof.
  intros Hi Hj. unfold ttest_of. cbn [fst snd].
  assert (N : forall (A : Type) (f : string * list (option Q) -> A) n c d,
             numeric !! n = Some c -> nth n (map f numeric) d = f c).
  { intros A f n c d H. apply nth_lookup_Some with (d := d).
    rewrite list_lookup_fmap, H. reflexivity. }
  rewrite !(N _ fst _ _ _ Hi), !(N _ fst _ _ _ Hj),
    !(N _ snd _ _ _ Hi), !(N _ snd _ _ _ Hj). reflexivity.
Qed.

Lemma ttests_nil (numeric : list (string * list (option Q))) :
  ttests ttest_ind numeric = [] <-> length numeric < 2.
Proof.
  rewrite ttests_pairs. split.
  - intros H. destruct (Nat.lt_ge_cases (length numeric) 2) as [L | L]; [assumption |].
    assert (I : In (0, 1) (pairs (length numeric))) by (apply in_pairs; lia).
    apply (in_map (ttest_of ttest_ind numeric)) in I. rewrite H in I. destruct I.
  - intros H. destruct (length numeric) as [| [| n]]; [reflexivity | reflexivity | lia].
Qed.

End PairwiseFacts.

(** ** Facts on the loaded table *)

Lemma from_excel_labels (df : DataFrame) :
  from_excel df = true -> NoDup (map label (columns df)).
Proof.
  unfold from_excel. rewrite !andb_true_iff. intros [[_ H] _].
  now apply bool_decide_eq_true in H.
Qed.

Lemma select_number_labels (df : DataFrame) :
  from_excel df = true -> NoDup (map fst (select_number df)).
Proof.
  intros H. apply from_excel_labels in H. unfold select_number.
  induction (columns df) as [| c cs IH]; simpl in *; [constructor |].
  apply NoDup_cons in H as [Hc Hcs].
  destruct (data c); simpl; [| now apply IH].
  apply NoDup_cons. split; [| now apply IH].
  intros I. apply Hc. clear - I.
  induction cs as [| c' cs IH]; simpl in *; [inversion I |].
  destruct (data c'); simpl in *.
  - apply elem_of_cons in I as [-> | I]; [left | right; now apply IH].
  - right. now apply IH.
Qed.

Lemma select_number_rows (df : DataFrame) :
  from_excel df = true ->
  negb (empty (select_number df) (index df)) = Nat.leb 1 (length (select_number df)).
Proof.
  unfold from_excel. rewrite !andb_true_iff, orb_true_iff. intros [_ H].
  unfold empty. destruct (select_number df) as [| c cs] eqn:E; [reflexivity |].
  simpl. destruct H as [H | H]; [now rewrite H |].
  exfalso. unfold select_number in E.
  induction (columns df) as [| c' cs' IH]; simpl in *; [discriminate |].
  apply andb_true_iff in H as [H1 H2].
  unfold is_number in H1. destruct (data c'); [discriminate | now apply IH].
Qed.

(** ** The list of discussions *)

Section DiscussionFacts.

Variable agg : list (option Q) -> float64 * float64.
Variable ttest_ind : list Q -> list Q -> float64 * float64.

Lemma tables_titles (df : DataFrame) :
  from_excel df = true ->
  let k := length (select_number df) in
  map (fun t : table => fst (fst t)) (tables agg ttest_ind df)
  = ["Table A. Raw Data"]
    ++ (if Nat.leb 1 k then ["Table B. Statistical Summary"] else [])
    ++ map (fun col => "Table C. Frequency Distribution of " +:+ fst col) (select_other df)
    ++ (if Nat.leb 2 k then ["Correlation Matrix"] else [])
    ++ (if Nat.leb 2 k then ["T-Test Results"] else []).
Proof.
  intros H k. unfold tables. rewrite (select_number_rows df H). fold k.
  rewrite !map_app, map_map. cbn [map fst app].
  f_equal. f_equal; [now destruct (Nat.leb 1 k) |].
  f_equal. f_equal; [now destruct (Nat.ltb 1 k) eqn:E; change (Nat.leb 2 k) with (Nat.ltb 1 k); rewrite E |].
  destruct (ttests ttest_ind (select_number df)) as [| e es] eqn:E.
  - apply ttests_nil in E. fold k in E.
    destruct (Nat.leb_spec 2 k); [lia | reflexivity].
  - destruct (Nat.leb_spec 2 k) as [L | L]; [reflexivity |].
    apply (ttests_nil ttest_ind) in L. congruence.
Qed.

End DiscussionFacts.

(** C1: when the analysis of an uploaded table returns its page, the
    discussions of the report are, in this order: the raw data, the
    statistical summary when there is a numeric column, one per categorical
    column in column order, the correlation matrix and the pairwise tests
    when there are two numeric columns or more; their number is the sum of
    these counts. *)
Theorem table_discussions_count_and_order
        (agg : list (option Q) -> float64 * float64)
        (ttest_ind : list Q -> list Q -> float64 * float64)
        (service : nat -> prompt -> reply)
        (request : HttpRequest) (df : DataFrame) (w w' : world)
        (page : HttpResponse) :
  method request = "POST" ->
  is_valid (form request) = true ->
  file request = Workbook df ->
  from_excel df = true ->
  analyze agg ttest_ind service request w = (Return (Some page), w') ->
  exists r : Report,
    page = render "results.html" (ReportContext r)
    /\ session w' !! "report_data" = Some r
    /\ let k := length (select_number df) in
       let categorical := select_other df in
       length (table_discussions r)
       = 1 + (if Nat.leb 1 k then 1 else 0) + length categorical
         + (if Nat.leb 2 k then 1 else 0) + (if Nat.leb 2 k then 1 else 0)
       /\ map fst (table_discussions r)
          = ["Table A. Raw Data"]
            ++ (if Nat.leb 1 k then ["Table B. Statistical Summary"] else [])
            ++ map (fun col => "Table C. Frequency Distribution of " +:+ fst col) categorical
            ++ (if Nat.leb 2 k then ["Correlation Matrix"] else [])
            ++ (if Nat.leb 2 k then ["T-Test Results"] else []).
Proof.
  intros Hm Hv Hf He E.
  destruct (analyze_returns _ _ _ _ _ _ _ _ Hm Hv Hf E) as (_ & -> & ->).
  eexists. split; [reflexivity |].
  split; [apply lookup_insert_eq |].
  cbn [table_discussions report_of].
  assert (T := tables_titles agg ttest_ind df He). cbn zeta in T.
  split.
  - rewrite discuss_length, <- (length_map (fun t : table => fst (fst t))), T.
    rewrite !length_app, length_map. cbn [length].
    destruct (Nat.leb 1 _), (Nat.leb 2 _); cbn [length]; lia.
  - rewrite discuss_titles. exact T.
Qed.

Lemma nth_label_inj (names : list string) (i j : nat) :
  NoDup names -> i < length names -> j < length names ->
  nth i names "" = nth j names "" -> i = j.
Proof.
  intros N. apply NoDup_ListNoDup in N.
  apply (proj1 (List.NoDup_nth names "") N).
Qed.

(** C3: when the analysis returns its page, with k numeric columns the
    pairwise list of the report has k*(k-1)/2 entries, one Welch test per
    index pair i < j, in the order of the columns; it is empty below two
    numeric columns; no entry pairs a column with itself and no two entries
    bear the same two columns, in either order. *)
Theorem pairwise_tests
        (agg : list (option Q) -> float64 * float64)
        (ttest_ind : list Q -> list Q -> float64 * float64)
        (service : nat -> prompt -> reply)
        (request : HttpRequest) (df : DataFrame) (w w' : world)
        (page : HttpResponse) :
  method request = "POST" ->
  is_valid (form request) = true ->
  file request = Workbook df ->
  from_excel df = true ->
  analyze agg ttest_ind service request w = (Return (Some page), w') ->
  exists r : Report,
    page = render "results.html" (ReportContext r)
    /\ session w' !! "report_data" = Some r
    /\ let numeric := select_number df in
       let k := length numeric in
       length (ttest_results r) = k * (k - 1) / 2
       /\ (k < 2 -> ttest_results r = [])
       /\ (exists ijs : list (nat * nat),
             ttest_results r = map (ttest_of ttest_ind numeric) ijs
             /\ StronglySorted lex ijs
             /\ NoDup ijs
             /\ forall i j, In (i, j) ijs <-> i < j < k)
       /\ (forall i j a b xs ys,
             numeric !! i = Some (a, xs) ->
             numeric !! j = Some (b, ys) ->
             ttest_of ttest_ind numeric (i, j)
             = {| var1 := a;
                  var2 := b;
                  t_stat := round (fst (ttest_ind (dropna xs) (dropna ys))) 4;
                  p_val := round (snd (ttest_ind (dropna xs) (dropna ys))) 4 |})
       /\ (forall e, In e (ttest_results r) -> var1 e <> var2 e)
       /\ NoDup (map (fun e => (var1 e, var2 e)) (ttest_results r))
       /\ (forall e e', In e (ttest_results r) -> In e' (ttest_results r) ->
             ~ (var1 e = var2 e' /\ var2 e = var1 e')).
Proof.
  intros Hm Hv Hf He Hr.
  destruct (analyze_returns _ _ _ _ _ _ _ _ Hm Hv Hf Hr) as (_ & -> & ->).
  clear Hr. eexists. split; [reflexivity |].
  split; [apply lookup_insert_eq |].
  cbn [ttest_results report_of]. cbn zeta.
  set (numeric := select_number df). set (k := length numeric).
  assert (N : NoDup (map fst numeric)) by now apply select_number_labels.
  assert (L : length (map fst numeric) = k) by apply length_map.
  assert (I : forall e, In e (ttests ttest_ind numeric) ->
                exists i j, i < j < k /\ var1 e = nth i (map fst numeric) ""
                            /\ var2 e = nth j (map fst numeric) "").
  { intros e H. rewrite ttests_pairs in H.
    apply in_map_iff in H as ([i j] & <- & H). apply in_pairs in H.
    exists i, j. now repeat split. }
  repeat split.
  - rewrite ttests_pairs, length_map. apply pairs_length.
  - intros H. now apply ttests_nil.
  - exists (pairs k). split; [apply ttests_pairs |].
    split; [apply sorted_pairs |]. split; [apply NoDup_pairs |].
    intros i j. apply in_pairs.
  - intros i j a b xs ys. apply ttest_of_lookup.
  - intros e H E. apply I in H as (i & j & Hij & V1 & V2).
    rewrite V1, V2 in E.
    apply (nth_label_inj _ _ _ N) in E; lia.
  - rewrite ttests_pairs, map_map. fold k.
    apply NoDup_fmap_2_strong; [| apply NoDup_pairs].
    intros [i j] [i' j'] H H' [= E1 E2].
    apply list_elem_of_In, in_pairs in H, H'. cbn [fst snd] in *.
    apply (nth_label_inj _ _ _ N) in E1, E2; try lia. congruence.
  - intros e e' H H' [E1 E2].
    apply I in H as (i & j & Hij & V1 & V2).
    apply I in H' as (i' & j' & Hij' & V1' & V2').
    rewrite V1, V2' in E1. rewrite V2, V1' in E2.
    apply (nth_label_inj _ _ _ N) in E1, E2; lia.
Qed.

(** C2: a failure of the text-generation call does not leave the annotator:
    the discussion of that table is the fixed fallback sentence.  When an
    analysis returns its page, the analysis that differs only in request
    number [n] failing returns its page as well, with the same titles and
    with every other discussion the same. *)
Theorem discussion_fallback
        (agg : list (option Q) -> float64 * float64)
        (ttest_ind : list Q -> list Q -> float64 * float64)
        (service service' : nat -> prompt -> reply)
        (request : HttpRequest) (df : DataFrame) (w : world) (n : nat) :
  method request = "POST" ->
  is_valid (form request) = true ->
  file request = Workbook df ->
  (forall k p, k <> n -> service' k p = service k p) ->
  (forall p, exists message, service' n p = Failure message) ->
  (forall title description x w0,
      requests w0 = n ->
      fst (ai_generate_discussion service' title description x w0)
      = Return "AI-generated discussion is unavailable at the moment.")
  /\ forall (page : HttpResponse) (w1 : world),
       analyze agg ttest_ind service request w = (Return (Some page), w1) ->
       exists (r r' : Report) (w1' : world),
         page = render "results.html" (ReportContext r)
         /\ analyze agg ttest_ind service' request w
            = (Return (Some (render "results.html" (ReportContext r'))), w1')
         /\ map fst (table_discussions r') = map fst (table_discussions r)
         /\ forall i title text,
              table_discussions r !! i = Some (title, text) ->
              table_discussions r' !! i
              = Some (title,
                      if Nat.eqb (requests w + i) n
                      then "AI-generated discussion is unavailable at the moment."
                      else text).
Proof.
  intros Hm Hv Hf Hs Hn.
  assert (A : forall k t, answer service' k t
                          = if Nat.eqb k n then fallback else answer service k t).
  { intros k t. unfold answer. destruct (Nat.eqb_spec k n) as [-> | Hk].
    - now destruct (Hn (prompt_of t)) as [m ->].
    - now rewrite Hs. }
  split.
  - intros t d x w0 H0. rewrite ai_generate_discussion_run. cbn [fst].
    now rewrite A, H0, Nat.eqb_refl.
  - intros page w1 E.
    destruct (analyze_returns _ _ _ _ _ _ _ _ Hm Hv Hf E) as (Hc & -> & ->).
    eexists _, _, _.
    split; [reflexivity |].
    split; [apply (analyze_post _ _ _ _ _ _ Hm Hv Hf Hc) |].
    cbn [table_discussions report_of]. split; [now rewrite !discuss_titles |].
    intros i title text H.
    assert (Hi : is_Some (tables agg ttest_ind df !! i)).
    { apply lookup_lt_is_Some. rewrite <- (discuss_length service _ w).
      now apply lookup_lt_Some in H. }
    destruct Hi as [t Ht].
    rewrite (discuss_lookup _ _ _ _ _ Ht) in H. injection H as <- <-.
    rewrite (discuss_lookup _ _ _ _ _ Ht). now rewrite A.
Qed.

(** ** Frequency tables *)

Lemma first_seen_lt (k : option string) (vals : list (option string)) :
  In k vals -> first_seen k vals < length vals.
Proof.
  induction vals as [| v vals IH]; simpl; [tauto |].
  intros [-> | Hin]; case_bool_decide; try lia; try congruence.
  specialize (IH Hin). lia.
Qed.

Lemma first_seen_app (k v : option string) (vals : list (option string)) :
  In k vals -> first_seen k (vals ++ [v]) = first_seen k vals.
Proof.
  induction vals as [| u vals IH]; simpl; [tauto |].
  intros [-> | Hin]; case_bool_decide; try congruence; auto.
Qed.

Lemma first_seen_new (v : option string) (vals : list (option string)) :
  ~ In v vals -> first_seen v (vals ++ [v]) = length vals.
Proof.
  induction vals as [| u vals IH]; simpl; intros Hin.
  - now case_bool_decide.
  - case_bool_decide; [subst; tauto |]. rewrite IH; tauto.
Qed.

Lemma occurrences_app (k : option string) (p q : list (option string)) :
  occurrences k (p ++ q) = occurrences k p + occurrences k q.
Proof. unfold occurrences. now rewrite List.filter_app, length_app. Qed.

Lemma occurrences_pos (k : option string) (vals : list (option string)) :
  In k vals <-> 0 < occurrences k vals.
Proof.
  unfold occurrences. induction vals as [| v vals IH]; simpl; [split; [tauto | lia] |].
  case_bool_decide as E; simpl; split; try lia; auto.
  - intros [-> | Hin]; [congruence | now apply IH].
  - intros Hin. right. now apply IH.
Qed.

(** *** The pass that counts *)

Lemma tally_keys_old (k : option string) (tbl : list (option string * nat)) :
  In k (map fst tbl) -> map fst (tally k tbl) = map fst tbl.
Proof.
  induction tbl as [| [k' n] tbl IH]; simpl; [tauto |].
  intros Hin. case_bool_decide as E; simpl; [reflexivity |].
  rewrite IH; [reflexivity |]. destruct Hin; congruence.
Qed.

Lemma tally_keys_new (k : option string) (tbl : list (option string * nat)) :
  ~ In k (map fst tbl) -> map fst (tally k tbl) = map fst tbl ++ [k].
Proof.
  induction tbl as [| [k' n] tbl IH]; simpl; [reflexivity |].
  intros Hin. case_bool_decide as E; simpl; [subst; tauto |].
  rewrite IH; tauto.
Qed.

Lemma tally_recorded (k k' : option string) (tbl : list (option string * nat)) :
  recorded k' (tally k tbl) = recorded k' tbl + (if bool_decide (k' = k) then 1 else 0).
Proof.
  induction tbl as [| [u n] tbl IH]; simpl.
  - now repeat case_bool_decide.
  - case_bool_decide as E; simpl; repeat (case_bool_decide; simpl);
      subst; rewrite ?IH; repeat (case_bool_decide; simpl); try congruence; try lia.
Qed.

Lemma tally_sum (k : option string) (tbl : list (option string * nat)) :
  sum_list_with snd (tally k tbl) = S (sum_list_with snd tbl).
Proof.
  induction tbl as [| [u n] tbl IH]; simpl; [reflexivity |].
  case_bool_decide; simpl; [lia | rewrite IH; lia].
Qed.

Lemma count_values_snoc (p : list (option string)) (v : option string) :
  count_values (p ++ [v]) = tally v (count_values p).
Proof. unfold count_values. now rewrite fold_left_app. Qed.

Lemma count_values_keys_in (p : list (option string)) (k : option string) :
  In k (map fst (count_values p)) <-> In k p.
Proof.
  revert k; induction p as [| v p IH] using rev_ind; intros k; [reflexivity |].
  rewrite count_values_snoc, in_app_iff.
  destruct (decide (v ∈ map fst (count_values p))) as [E | E];
    rewrite list_elem_of_In in E.
  - rewrite tally_keys_old, IH by assumption. apply IH in E.
    simpl. split; [tauto |]. intros [Hin | [<- | []]]; tauto.
  - rewrite tally_keys_new, in_app_iff, IH by assumption. reflexivity.
Qed.

Lemma count_values_keys_NoDup (p : list (option string)) :
  NoDup (map fst (count_values p)).
Proof.
  induction p as [| v p IH] using rev_ind; [constructor |].
  rewrite count_values_snoc.
  destruct (decide (v ∈ map fst (count_values p))) as [E | E];
    rewrite list_elem_of_In in E;
    [now rewrite tally_keys_old | rewrite tally_keys_new by assumption].
  apply NoDup_app. split; [assumption |]. split; [| apply NoDup_singleton].
  intros k Hk Hv. apply list_elem_of_In in Hk.
  apply list_elem_of_singleton in Hv. congruence.
Qed.

Lemma count_values_recorded (p : list (option string)) (k : option string) :
  recorded k (count_values p) = occurrences k p.
Proof.
  induction p as [| v p IH] using rev_ind; [reflexivity |].
  rewrite count_values_snoc, tally_recorded, occurrences_app, IH.
  unfold occurrences at 3. simpl. now repeat case_bool_decide; try congruence.
Qed.

Lemma count_values_sum (p : list (option string)) :
  sum_list_with snd (count_values p) = length p.
Proof.
  induction p as [| v p IH] using rev_ind; [reflexivity |].
  rewrite count_values_snoc, tally_sum, IH, length_app. simpl. lia.
Qed.

Lemma count_values_first_seen (p : list (option string)) :
  StronglySorted (fun a b => first_seen a p < first_seen b p) (map fst (count_values p)).
Proof.
  induction p as [| v p IH] using rev_ind; [constructor |].
  assert (S : StronglySorted (fun a b => first_seen a (p ++ [v]) < first_seen b (p ++ [v]))
                (map fst (count_values p))).
  { assert (Hl : forall k, In k (map fst (count_values p)) -> In k p)
      by (intros k; apply count_values_keys_in).
    revert IH Hl. generalize (map fst (count_values p)) as l. intros l IH Hl.
    induction IH as [| a l _ IHl Ha]; constructor.
    - apply IHl. intros k Hk. apply Hl. now right.
    - apply List.Forall_forall. intros b Hb.
      rewrite !first_seen_app.
      + rewrite List.Forall_forall in Ha. now apply Ha.
      + apply Hl. now right.
      + apply Hl. now left. }
  rewrite count_values_snoc.
  destruct (decide (v ∈ map fst (count_values p))) as [E | E];
    rewrite list_elem_of_In in E;
    [now rewrite tally_keys_old | rewrite tally_keys_new by assumption].
  apply StronglySorted_app_2; [| assumption | repeat constructor].
  intros a b Ha Hb. apply list_elem_of_singleton in Hb. subst b.
  apply list_elem_of_In in Ha. apply (proj1 (count_values_keys_in p a)) in Ha.
  rewrite count_values_keys_in in E.
  rewrite first_seen_app, first_seen_new by assumption. now apply first_seen_lt.
Qed.

Lemma recorded_in (tbl : list (option string * nat)) (k : option string) (n : nat) :
  NoDup (map fst tbl) -> In (k, n) tbl -> recorded k tbl = n.
Proof.
  induction tbl as [| [u m] tbl IH]; simpl; [tauto |].
  intros N H. apply NoDup_cons in N as [N1 N2].
  destruct H as [[= -> ->] | H]; case_bool_decide; try congruence.
  - subst. exfalso. apply N1, list_elem_of_In. now apply (in_map fst) in H.
  - now apply IH.
Qed.

(** *** The sort *)

Lemma insert_desc_perm (r : option string * nat) (l : list (option string * nat)) :
  insert_desc r l ≡ₚ r :: l.
Proof.
  induction l as [| h t IH]; simpl; [reflexivity |].
  destruct (Nat.leb (snd h) (snd r)); [reflexivity |].
  rewrite IH. apply Permutation_swap.
Qed.

Lemma sort_desc_perm (l : list (option string * nat)) : sort_desc l ≡ₚ l.
Proof.
  induction l as [| h t IH]; simpl; [reflexivity |].
  now rewrite insert_desc_perm, IH.
Qed.

Lemma insert_desc_sorted (vals : list (option string)) (r : option string * nat)
      (l : list (option string * nat)) :
  StronglySorted (ranked vals) l ->
  Forall (fun y => first_seen (fst r) vals < first_seen (fst y) vals) l ->
  StronglySorted (ranked vals) (insert_desc r l).
Proof.
  intros S. induction S as [| h t S IH Hh]; intros F; simpl; [repeat constructor |].
  apply Forall_cons in F as [Fh Ft].
  destruct (Nat.leb_spec (snd h) (snd r)) as [L | L].
  - constructor; [now constructor |].
    assert (B : forall y, first_seen (fst r) vals < first_seen (fst y) vals ->
                          snd y <= snd r -> ranked vals r y)
      by (intros y P C; unfold ranked; lia).
    constructor; [now apply B |].
    rewrite List.Forall_forall in Hh. rewrite Forall_forall in Ft.
    apply List.Forall_forall. intros y Hy. apply B.
    + apply Ft. now apply list_elem_of_In.
    + specialize (Hh y Hy). unfold ranked in Hh. lia.
  - constructor; [now apply IH |].
    rewrite insert_desc_perm.
    constructor; [unfold ranked; lia | assumption].
Qed.

Lemma sort_desc_sorted (vals : list (option string)) (l : list (option string * nat)) :
  StronglySorted (fun x y => first_seen (fst x) vals < first_seen (fst y) vals) l ->
  StronglySorted (ranked vals) (sort_desc l).
Proof.
  intros S. induction S as [| h t S IH Hh]; simpl; [constructor |].
  apply insert_desc_sorted; [assumption |].
  now rewrite sort_desc_perm.
Qed.

Lemma StronglySorted_unmap {A B} (R : B -> B -> Prop) (f : A -> B) (l : list A) :
  StronglySorted R (map f l) -> StronglySorted (fun x y => R (f x) (f y)) l.
Proof.
  induction l as [| a l IH]; simpl; intros S; [constructor |].
  apply StronglySorted_inv in S as [S F]. constructor; [now apply IH |].
  rewrite List.Forall_forall in *. intros x Hx. apply F. now apply in_map.
Qed.

Lemma StronglySorted_lookup {A} (R : A -> A -> Prop) (l : list A) (i j : nat) (x y : A) :
  StronglySorted R l -> l !! i = Some x -> l !! j = Some y -> i < j -> R x y.
Proof.
  intros S. revert i j. induction S as [| a l S IH F]; intros i j Hi Hj L; [discriminate |].
  destruct j as [| j]; [lia |]. destruct i as [| i]; simpl in *.
  - injection Hi as <-. rewrite List.Forall_forall in F. apply F.
    apply list_elem_of_In, list_elem_of_lookup. eauto.
  - apply (IH i j); [assumption | assumption | lia].
Qed.

Lemma value_counts_sorted (vals : list (option string)) :
  StronglySorted (ranked vals) (value_counts vals).
Proof.
  apply sort_desc_sorted.
  apply (StronglySorted_unmap (fun a b => first_seen a vals < first_seen b vals) fst).
  apply count_values_first_seen.
Qed.

Lemma value_counts_keys (vals : list (option string)) :
  NoDup (map fst (value_counts vals))
  /\ forall k, In k (map fst (value_counts vals)) <-> In k vals.
Proof.
  unfold value_counts. split.
  - rewrite sort_desc_perm. apply count_values_keys_NoDup.
  - intros k. rewrite <- (count_values_keys_in vals k).
    assert (P : map fst (sort_desc (count_values vals)) ≡ₚ map fst (count_values vals))
      by now rewrite sort_desc_perm.
    rewrite <- !list_elem_of_In. now rewrite P.
Qed.

Lemma value_counts_count (vals : list (option string)) (k : option string) (n : nat) :
  In (k, n) (value_counts vals) -> n = occurrences k vals.
Proof.
  intros H. rewrite <- count_values_recorded. symmetry.
  apply recorded_in; [apply count_values_keys_NoDup |].
  unfold value_counts in H. apply list_elem_of_In in H.
  rewrite sort_desc_perm in H. now apply list_elem_of_In.
Qed.

Lemma value_counts_sum (vals : list (option string)) :
  sum_list_with snd (value_counts vals) = length vals.
Proof.
  unfold value_counts. rewrite sort_desc_perm. apply count_values_sum.
Qed.

Lemma frequency_rows_categories (vals : list (option string)) (total : nat) :
  map Category (frequency_rows vals total) = map fst (value_counts vals).
Proof. unfold frequency_rows, percent_rows. now rewrite map_map. Qed.

Lemma frequency_rows_lookup (vals : list (option string)) (total i : nat) (row : FrequencyRow) :
  frequency_rows vals total !! i = Some row ->
  value_counts vals !! i = Some (Category row, Frequency row).
Proof.
  unfold frequency_rows, percent_rows. rewrite list_lookup_fmap.
  destruct (value_counts vals !! i) as [[k n] |]; [| discriminate].
  now intros [= <-].
Qed.

(** C8: when the analysis returns its page, the rows of each frequency
    table of the report come by descending count; rows of equal count come
    in the order in which their values first appear in the column; every
    value of the column, the missing one included, has its one row, bearing
    the number of its cells. *)
Theorem frequency_rows_order
        (agg : list (option Q) -> float64 * float64)
        (ttest_ind : list Q -> list Q -> float64 * float64)
        (service : nat -> prompt -> reply)
        (request : HttpRequest) (df : DataFrame) (w w' : world)
        (page : HttpResponse) :
  method request = "POST" ->
  is_valid (form request) = true ->
  file request = Workbook df ->
  analyze agg ttest_ind service request w = (Return (Some page), w') ->
  exists r : Report,
    page = render "results.html" (ReportContext r)
    /\ session w' !! "report_data" = Some r
    /\ Forall2
         (fun (col : string * list (option string)) (tbl : string * list FrequencyRow) =>
            let vals := snd col in
            let rows := snd tbl in
            fst tbl = fst col
            /\ (forall i j ri rj,
                  rows !! i = Some ri -> rows !! j = Some rj -> i < j ->
                  Frequency rj <= Frequency ri
                  /\ (Frequency ri = Frequency rj ->
                      first_seen (Category ri) vals < first_seen (Category rj) vals))
            /\ (forall row, In row rows ->
                  In (Category row) vals
                  /\ Frequency row = occurrences (Category row) vals)
            /\ NoDup (map Category rows)
            /\ (forall v, In v vals -> In v (map Category rows))
            /\ (In None vals ->
                exists row, In row rows /\ Category row = None
                            /\ Frequency row = occurrences None vals))
         (select_other df) (freq_tables r).
Proof.
  intros Hm Hv Hf Hr.
  destruct (analyze_returns _ _ _ _ _ _ _ _ Hm Hv Hf Hr) as (_ & -> & ->).
  clear Hr. eexists. split; [reflexivity |].
  split; [apply lookup_insert_eq |].
  cbn [freq_tables report_of].
  apply Forall2_fmap_r, Forall_Forall2_diag, Forall_forall.
  intros [name vals] _. simpl.
  destruct (value_counts_keys vals) as [N K].
  assert (C : forall row, In row (frequency_rows vals (index df)) ->
                In (Category row) vals
                /\ Frequency row = occurrences (Category row) vals).
  { intros row H. apply list_elem_of_In, list_elem_of_lookup in H as [i H].
    apply frequency_rows_lookup in H.
    assert (I : In (Category row, Frequency row) (value_counts vals))
      by (apply list_elem_of_In, list_elem_of_lookup; eauto).
    split; [| now apply value_counts_count].
    apply K. now apply (in_map fst) in I. }
  split; [reflexivity |]. split; [| split; [exact C |]].
  - intros i j ri rj Hi Hj L.
    apply frequency_rows_lookup in Hi, Hj.
    pose proof (StronglySorted_lookup _ _ _ _ _ _ (value_counts_sorted vals) Hi Hj L) as R.
    unfold ranked in R. cbn [fst snd] in R. lia.
  - rewrite frequency_rows_categories. split; [exact N |].
    split; [intros v; apply K |].
    intros H. apply K, in_map_iff in H as ([k n] & E & H). cbn [fst] in E. subst k.
    exists {| Category := None; Frequency := n; Percent := percent_of n (index df) |}.
    split; [| split; [reflexivity | now apply value_counts_count]].
    unfold frequency_rows, percent_rows. apply in_map_iff. now exists (None, n).
Qed.

(** ** The rounding to float64 *)

Section FloatFacts.

Local Open Scope Q_scope.

Lemma rint_error (q : Q) : Qabs (inject_Z (rint q) - q) <= 1 # 2.
Proof.
  unfold rint. cbv zeta.
  pose proof (Qfloor_le q) as L. pose proof (Qlt_floor q) as U.
  rewrite inject_Z_plus in U. change (inject_Z 1) with 1%Q in U.
  apply Qabs_Qle_condition.
  destruct (Qcompare_spec (q - inject_Z (Qfloor q)) (1 # 2)) as [E | E | E];
    [destruct (Z.even (Qfloor q)) | |];
    rewrite ?inject_Z_plus; change (inject_Z 1) with 1%Q;
    revert L U E; generalize (inject_Z (Qfloor q)); intros f L U E; lra.
Qed.

Lemma rint_range (a b : Z) (q : Q) :
  inject_Z a <= q -> q <= inject_Z b -> (a <= rint q <= b)%Z.
Proof.
  intros A B. unfold rint. cbv zeta.
  pose proof (Qfloor_le q) as L. pose proof (Qlt_floor q) as U.
  rewrite inject_Z_plus in U. change (inject_Z 1) with 1%Q in U.
  assert (A' : (a <= Qfloor q)%Z).
  { apply Z.lt_succ_r. rewrite Zlt_Qlt. unfold Z.succ. rewrite inject_Z_plus.
    change (inject_Z 1) with 1%Q. lra. }
  assert (B' : (Qfloor q <= b)%Z) by (rewrite Zle_Qle; lra).
  assert (C : 1 # 2 <= q - inject_Z (Qfloor q) -> (Qfloor q + 1 <= b)%Z).
  { intros H. apply Z.lt_succ_r. unfold Z.succ. apply Z.add_lt_mono_r.
    rewrite Zlt_Qlt. lra. }
  destruct (Qcompare_spec (q - inject_Z (Qfloor q)) (1 # 2)) as [E | E | E].
  - destruct (Z.even (Qfloor q)); [lia |]. split; [lia |]. apply C. lra.
  - lia.
  - split; [lia |]. apply C. lra.
Qed.

Lemma rint_inject_Z (k : Z) (q : Q) : q == inject_Z k -> rint q = k.
Proof.
  intros E. assert (H : (k <= rint q <= k)%Z) by (apply rint_range; lra). lia.
Qed.

Lemma pow2_pos (e : Z) : 0 < pow2 e.
Proof. apply Qpower_0_lt. reflexivity. Qed.

Lemma pow2_add (a b : Z) : pow2 (a + b) == pow2 a * pow2 b.
Proof. apply Qpower_plus. discriminate. Qed.

Lemma pow2_le (a b : Z) : (a <= b)%Z -> pow2 a <= pow2 b.
Proof. intros H. apply Qpower_le_compat_l; [exact H | discriminate]. Qed.

Lemma pow2_lt_inv (a b : Z) : pow2 a < pow2 b -> (a < b)%Z.
Proof. intros H. apply (Qpower_lt_compat_l_inv 2); [exact H | reflexivity]. Qed.

Lemma pow2_Z (k : Z) : (0 <= k)%Z -> pow2 k == inject_Z (2 ^ k).
Proof. intros H. unfold pow2. now rewrite Zpower_Qpower. Qed.

Lemma pow2_succ (a : Z) : pow2 (a + 1) == 2 * pow2 a.
Proof. rewrite pow2_add. change (pow2 1) with 2. ring. Qed.

Lemma ilog2_spec (q : Q) :
  0 < q -> pow2 (ilog2 q) <= q /\ q < pow2 (ilog2 q + 1).
Proof.
  intros Hq. unfold ilog2. cbv zeta.
  destruct q as [a b]. cbn [Qnum Qden].
  assert (Ha : (0 < a)%Z) by (unfold Qlt in Hq; simpl in Hq; lia).
  set (la := Z.log2 a). set (lb := Z.log2 (Z.pos b)).
  pose proof (Z.log2_spec a Ha) as [A1 A2]. fold la in A1, A2.
  pose proof (Z.log2_spec (Z.pos b) (Pos2Z.is_pos b)) as [B1 B2]. fold lb in B1, B2.
  pose proof (Z.log2_nonneg a) as La. fold la in La.
  pose proof (Z.log2_nonneg (Z.pos b)) as Lb. fold lb in Lb.
  set (k := (la - lb - 1)%Z).
  assert (Q1 : pow2 la <= inject_Z a).
  { rewrite pow2_Z by assumption. now rewrite <- Zle_Qle. }
  assert (Q2 : inject_Z a < pow2 (la + 1)).
  { rewrite pow2_Z by lia. rewrite <- Zlt_Qlt. unfold Z.succ in A2. exact A2. }
  assert (Q3 : pow2 lb <= inject_Z (Z.pos b)).
  { rewrite pow2_Z by assumption. now rewrite <- Zle_Qle. }
  assert (Q4 : inject_Z (Z.pos b) < pow2 (lb + 1)).
  { rewrite pow2_Z by lia. rewrite <- Zlt_Qlt. unfold Z.succ in B2. exact B2. }
  assert (Bp : 0 < inject_Z (Z.pos b)) by reflexivity.
  assert (E1 : pow2 k * pow2 (lb + 1) == pow2 la).
  { rewrite <- pow2_add. unfold k. replace (la - lb - 1 + (lb + 1))%Z with la by lia.
    reflexivity. }
  assert (E2 : pow2 (k + 1 + 1) * pow2 lb == pow2 (la + 1)).
  { rewrite <- pow2_add. unfold k.
    replace (la - lb - 1 + 1 + 1 + lb)%Z with (la + 1)%Z by lia. reflexivity. }
  assert (E3 : (a # b) * inject_Z (Z.pos b) == inject_Z a).
  { rewrite (Qmake_Qdiv a b). field. discriminate. }
  pose proof (pow2_pos k) as K0. pose proof (pow2_pos (k + 1 + 1)) as K2.
  assert (L : pow2 k <= a # b).
  { apply Qnot_lt_le. intros C.
    assert ((a # b) * inject_Z (Z.pos b) < pow2 k * pow2 (lb + 1)).
    { apply Qle_lt_trans with (pow2 k * inject_Z (Z.pos b)).
      - apply Qmult_le_compat_r; [now apply Qlt_le_weak | now apply Qlt_le_weak].
      - apply Qmult_lt_l; assumption. }
    lra. }
  assert (U : a # b < pow2 (k + 1 + 1)).
  { apply Qnot_le_lt. intros C.
    assert (pow2 (k + 1 + 1) * pow2 lb <= (a # b) * inject_Z (Z.pos b)).
    { apply Qle_trans with (pow2 (k + 1 + 1) * inject_Z (Z.pos b)).
      - apply Qmult_le_l; assumption.
      - apply Qmult_le_compat_r; [exact C | now apply Qlt_le_weak]. }
    lra. }
  destruct (Qle_bool (pow2 (k + 1)) (a # b)) eqn:T.
  - apply Qle_bool_iff in T. split; assumption.
  - split; [exact L |]. apply Qnot_le_lt. intros C.
    apply Qle_bool_iff in C. congruence.
Qed.

Lemma ilog2_le (q r : Q) : 0 < q -> q <= r -> (ilog2 q <= ilog2 r)%Z.
Proof.
  intros Hq Hr.
  destruct (ilog2_spec q Hq) as [Q1 _].
  destruct (ilog2_spec r (Qlt_le_trans _ _ _ Hq Hr)) as [_ R2].
  assert (H : (ilog2 q < ilog2 r + 1)%Z) by (apply pow2_lt_inv; lra). lia.
Qed.

(** The rounding of a positive rational: the significand and its weight. *)

Lemma fl_pos (q : Q) :
  0 < q ->
  fl q = let v := inject_Z (rint (q / pow2 (fexp q))) * pow2 (fexp q) in
         if Qle_bool (pow2 1024) v then Inf false else Fin (Qred v).
Proof.
  intros Hq. unfold fl, fexp.
  destruct (Qeq_bool q 0) eqn:Z; [apply Qeq_bool_iff in Z; lra |].
  assert (N : negative q = false).
  { unfold negative. apply Z.ltb_ge. unfold Qlt in Hq. simpl in Hq. lia. }
  rewrite N. cbv zeta.
  assert (A : Qabs q = q).
  { destruct q as [[| a | a] b]; try reflexivity. unfold Qlt in Hq. simpl in Hq. lia. }
  now rewrite A.
Qed.

(** The error of one rounding: half a unit in the last place. *)
Lemma fl_error (q : Q) :
  0 <= q -> q < pow2 1023 ->
  exists v, fl q = Fin v /\ 0 <= v
            /\ Qabs (v - q) <= q * pow2 (-53) + pow2 (-1075).
Proof.
  intros Hq Hb.
  pose proof (pow2_pos (-1075)) as U0. pose proof (pow2_pos (-53)) as R0.
  destruct (Qlt_le_dec 0 q) as [P | P].
  2: { exists 0. assert (E : q == 0) by lra.
       unfold fl. rewrite (proj2 (Qeq_bool_iff q 0) E).
       split; [reflexivity |]. split; [lra |].
       apply Qabs_Qle_condition. rewrite E. lra. }
  rewrite (fl_pos q P). cbv zeta.
  set (e := fexp q). set (m := rint (q / pow2 e)).
  pose proof (pow2_pos e) as E0.
  pose proof (rint_error (q / pow2 e)) as R. fold m in R.
  apply Qabs_Qle_condition in R.
  assert (D : q / pow2 e * pow2 e == q) by (field; lra).
  assert (M0 : (0 <= m)%Z).
  { apply (rint_range 0 (Qceiling (q / pow2 e))).
    - apply Qle_shift_div_l; [exact E0 | change (inject_Z 0) with 0; lra].
    - apply Qle_ceiling. }
  assert (M0' : 0 <= inject_Z m) by (change 0 with (inject_Z 0); now rewrite <- Zle_Qle).
  assert (V : Qabs (inject_Z m * pow2 e - q) <= pow2 e * (1 # 2)).
  { apply Qabs_Qle_condition.
    assert (X1 : (inject_Z m - q / pow2 e) * pow2 e <= (1 # 2) * pow2 e)
      by (apply Qmult_le_compat_r; lra).
    assert (X2 : - (1 # 2) * pow2 e <= (inject_Z m - q / pow2 e) * pow2 e)
      by (apply Qmult_le_compat_r; lra).
    revert X1 X2 D. generalize (q / pow2 e) (inject_Z m) (pow2 e).
    intros y z t X1 X2 D. lra. }
  assert (B : pow2 e * (1 # 2) <= q * pow2 (-53) + pow2 (-1075)).
  { unfold e, fexp. destruct (Z.max_spec (ilog2 q - 52) (-1074)) as [[_ ->] | [_ ->]].
    - assert (X : pow2 (-1074) * (1 # 2) == pow2 (-1075)) by reflexivity.
      assert (0 <= q * pow2 (-53)) by (apply Qmult_le_0_compat; lra). lra.
    - destruct (ilog2_spec q P) as [L _].
      assert (X : pow2 (ilog2 q - 52) * (1 # 2) == pow2 (ilog2 q) * pow2 (-53)).
      { replace (ilog2 q - 52)%Z with (ilog2 q + -52)%Z by lia.
        rewrite pow2_add.
        assert (Y : pow2 (-52) == 2 * pow2 (-53)) by reflexivity.
        rewrite Y. ring. }
      rewrite X.
      assert (pow2 (ilog2 q) * pow2 (-53) <= q * pow2 (-53))
        by (apply Qmult_le_compat_r; lra).
      lra. }
  assert (W : inject_Z m * pow2 e < pow2 1024).
  { apply Qabs_Qle_condition in V.
    assert (Y : q * pow2 (-53) <= pow2 1023 * pow2 (-53))
      by (apply Qmult_le_compat_r; lra).
    assert (pow2 1023 + pow2 1023 * pow2 (-53) + pow2 (-1075) < pow2 1024)
      by (vm_compute; reflexivity).
    lra. }
  destruct (Qle_bool (pow2 1024) (inject_Z m * pow2 e)) eqn:O.
  { apply Qle_bool_iff in O. lra. }
  eexists. split; [reflexivity |]. rewrite Qred_correct. split.
  - apply Qmult_le_0_compat; lra.
  - lra.
Qed.

(** A rational that is a float64 is rounded to itself. *)
Lemma fl_exact (q : Q) (k : Z) :
  0 < q -> q < pow2 1024 -> q == inject_Z k * pow2 (fexp q) -> fl q = Fin (Qred q).
Proof.
  intros P B E. rewrite (fl_pos q P). cbv zeta.
  pose proof (pow2_pos (fexp q)) as E0.
  assert (R : rint (q / pow2 (fexp q)) = k).
  { apply rint_inject_Z. rewrite E at 1. field. lra. }
  rewrite R.
  destruct (Qle_bool (pow2 1024) (inject_Z k * pow2 (fexp q))) eqn:O.
  { apply Qle_bool_iff in O. lra. }
  f_equal. apply Qred_complete. now symmetry.
Qed.

(** Rounding does not cross a float64. *)
Lemma fl_le (q r : Q) (k : Z) :
  0 <= q -> q <= r -> r < pow2 1024 -> r == inject_Z k * pow2 (fexp r) ->
  exists v, fl q = Fin v /\ 0 <= v /\ v <= r.
Proof.
  intros Hq Hr B E.
  destruct (Qlt_le_dec 0 q) as [P | P].
  2: { exists 0. assert (Z : q == 0) by lra.
       unfold fl. rewrite (proj2 (Qeq_bool_iff q 0) Z).
       split; [reflexivity |]. split; lra. }
  rewrite (fl_pos q P). cbv zeta.
  set (e := fexp q). pose proof (pow2_pos e) as E0.
  assert (Le : (e <= fexp r)%Z).
  { unfold e, fexp. pose proof (ilog2_le q r P Hr). lia. }
  set (K := (k * 2 ^ (fexp r - e))%Z).
  assert (EK : r == inject_Z K * pow2 e).
  { unfold K. rewrite inject_Z_mult, <- pow2_Z by lia.
    rewrite E at 1. rewrite <- Qmult_assoc, <- pow2_add.
    replace (fexp r - e + e)%Z with (fexp r) by lia. reflexivity. }
  assert (M : (0 <= rint (q / pow2 e) <= K)%Z).
  { apply rint_range.
    - apply Qle_shift_div_l; [exact E0 | change (inject_Z 0) with 0; lra].
    - apply Qle_shift_div_r; [exact E0 | lra]. }
  set (m := rint (q / pow2 e)) in *.
  assert (M0 : 0 <= inject_Z m) by (change 0 with (inject_Z 0); rewrite <- Zle_Qle; lia).
  assert (M1 : inject_Z m <= inject_Z K) by (rewrite <- Zle_Qle; lia).
  assert (V : inject_Z m * pow2 e <= r).
  { rewrite EK. apply Qmult_le_compat_r; lra. }
  destruct (Qle_bool (pow2 1024) (inject_Z m * pow2 e)) eqn:O.
  { apply Qle_bool_iff in O. lra. }
  eexists. split; [reflexivity |]. rewrite Qred_correct. split; [| exact V].
  apply Qmult_le_0_compat; lra.
Qed.

End FloatFacts.

(** ** Percentages *)

Section PercentFacts.

Local Open Scope Q_scope.

Lemma Qred_inject_Z (z : Z) : Qred (inject_Z z) = inject_Z z.
Proof. apply Qred_identity. simpl. apply Z.gcd_1_r. Qed.

Lemma ilog2_Z (z : Z) :
  (0 < z)%Z -> (z < 2 ^ 53)%Z -> (0 <= ilog2 (inject_Z z) <= 52)%Z.
Proof.
  intros H0 H1.
  assert (P : 0 < inject_Z z) by (change 0 with (inject_Z 0); now rewrite <- Zlt_Qlt).
  destruct (ilog2_spec (inject_Z z) P) as [L U].
  assert (B : inject_Z z < pow2 53).
  { rewrite (pow2_Z 53) by lia. now rewrite <- Zlt_Qlt. }
  assert (A : pow2 0 <= inject_Z z).
  { change (pow2 0) with (inject_Z 1). rewrite <- Zle_Qle. lia. }
  assert (X : (ilog2 (inject_Z z) < 53)%Z) by (apply pow2_lt_inv; lra).
  assert (Y : (0 < ilog2 (inject_Z z) + 1)%Z) by (apply pow2_lt_inv; lra).
  lia.
Qed.

(** An integer below 2^53 is a float64. *)
Lemma fl_inject_Z (z : Z) :
  (0 <= z)%Z -> (z < 2 ^ 53)%Z -> fl (inject_Z z) = Fin (inject_Z z).
Proof.
  intros H0 H1. destruct (Z.eq_dec z 0%Z) as [-> | N]; [reflexivity |].
  assert (P : 0 < inject_Z z) by (change 0 with (inject_Z 0); rewrite <- Zlt_Qlt; lia).
  pose proof (ilog2_Z z ltac:(lia) H1) as L.
  rewrite <- (Qred_inject_Z z) at 2.
  apply (fl_exact _ (z * 2 ^ (52 - ilog2 (inject_Z z)))).
  - exact P.
  - apply Qlt_trans with (pow2 53); [| reflexivity].
    rewrite (pow2_Z 53) by lia. now rewrite <- Zlt_Qlt.
  - unfold fexp. rewrite Z.max_l by lia.
    rewrite inject_Z_mult, <- pow2_Z by lia.
    rewrite <- Qmult_assoc, <- pow2_add.
    replace (52 - ilog2 (inject_Z z) + (ilog2 (inject_Z z) - 52))%Z with 0%Z by lia.
    change (pow2 0) with 1. ring.
Qed.

(** One rounding below a float64 [r]: the result stays below [r] and within
    half a unit in the last place of [r]. *)
Lemma fl_below (q r : Q) (k : Z) :
  0 <= q -> q <= r -> r < pow2 1023 -> r == inject_Z k * pow2 (fexp r) ->
  exists v, fl q = Fin v /\ 0 <= v /\ v <= r
            /\ Qabs (v - q) <= r * pow2 (-53) + pow2 (-1075).
Proof.
  intros Hq Hr B E.
  destruct (fl_le q r k Hq Hr) as (v & F & V0 & V1); [| exact E |].
  { apply Qlt_trans with (pow2 1023); [exact B | reflexivity]. }
  destruct (fl_error q Hq) as (v' & F' & _ & V2); [lra |].
  rewrite F in F'. injection F' as <-.
  exists v. split; [exact F |]. split; [exact V0 |]. split; [exact V1 |].
  assert (q * pow2 (-53) <= r * pow2 (-53)).
  { apply Qmult_le_compat_r; [exact Hr | discriminate]. }
  lra.
Qed.

Lemma percent_of_spec (n total : nat) :
  (n <= total)%nat -> (0 < total)%nat -> (Z.of_nat total < 2 ^ 53)%Z ->
  exists p, percent_of n total = Fin p
            /\ 0 <= p /\ p <= 100
            /\ Qabs (p - inject_Z (Z.of_nat n) / inject_Z (Z.of_nat total) * 100)
               <= (1 # 200) + (1 # 1000000000000).
Proof.
  intros Hn Ht Hb. unfold percent_of, float_of_nat.
  rewrite !fl_inject_Z by lia.
  set (N := inject_Z (Z.of_nat n)). set (T := inject_Z (Z.of_nat total)).
  assert (T0 : 0 < T) by (unfold T; change 0 with (inject_Z 0); rewrite <- Zlt_Qlt; lia).
  assert (N0 : 0 <= N) by (unfold N; change 0 with (inject_Z 0); rewrite <- Zle_Qle; lia).
  assert (NT : N <= T) by (unfold N, T; rewrite <- Zle_Qle; lia).
  unfold fdiv.
  destruct (Qeq_bool T 0) eqn:Z; [apply Qeq_bool_iff in Z; lra |].
  assert (Y0 : 0 <= N / T) by (apply Qle_shift_div_l; [exact T0 | lra]).
  assert (Y1 : N / T <= 1) by (apply Qle_shift_div_r; [exact T0 | lra]).
  destruct (fl_below (N / T) 1 (2 ^ 52) Y0 Y1) as (x1 & F1 & A1 & B1 & E1);
    [reflexivity | vm_compute; reflexivity |].
  rewrite F1. unfold fmul.
  assert (C1 : 0 <= x1 * 100) by lra.
  assert (D1 : x1 * 100 <= 100) by lra.
  destruct (fl_below (x1 * 100) 100 (100 * 2 ^ 46) C1 D1) as (x2 & F2 & A2 & B2 & E2);
    [reflexivity | vm_compute; reflexivity |].
  rewrite F2. unfold round. change (scale 2) with 100%positive.
  change (inject_Z (Z.pos 100)) with 100.
  unfold fmul.
  assert (C2 : 0 <= x2 * 100) by lra.
  assert (D2 : x2 * 100 <= 10000) by lra.
  destruct (fl_below (x2 * 100) 10000 (10000 * 2 ^ 39) C2 D2) as (x3 & F3 & A3 & B3 & E3);
    [reflexivity | vm_compute; reflexivity |].
  rewrite F3. unfold frint, fdiv. change (Qeq_bool 100 0) with false. cbv iota.
  pose proof (rint_range 0 10000 x3) as R. specialize (R A3 B3).
  pose proof (rint_error x3) as RE.
  set (z := rint x3) in *.
  assert (Z0 : 0 <= inject_Z z) by (change 0 with (inject_Z 0); rewrite <- Zle_Qle; lia).
  assert (Z1 : inject_Z z <= 10000)
    by (change 10000 with (inject_Z 10000); rewrite <- Zle_Qle; lia).
  assert (C3 : 0 <= inject_Z z / 100) by (apply Qle_shift_div_l; [reflexivity | lra]).
  assert (D3 : inject_Z z / 100 <= 100) by (apply Qle_shift_div_r; [reflexivity | lra]).
  destruct (fl_below (inject_Z z / 100) 100 (100 * 2 ^ 46) C3 D3) as (p & F4 & A4 & B4 & E4);
    [reflexivity | vm_compute; reflexivity |].
  rewrite F4. exists p. split; [reflexivity |]. split; [exact A4 |]. split; [exact B4 |].
  apply Qabs_Qle_condition in E1, E2, E3, E4, RE. apply Qabs_Qle_condition.
  assert (K1 : 1 * pow2 (-53) + pow2 (-1075) <= 1 # 1000000000000000) by (apply Qle_bool_iff; vm_compute; reflexivity).
  assert (K2 : 100 * pow2 (-53) + pow2 (-1075) <= 1 # 10000000000000) by (apply Qle_bool_iff; vm_compute; reflexivity).
  assert (K3 : 10000 * pow2 (-53) + pow2 (-1075) <= 1 # 100000000000) by (apply Qle_bool_iff; vm_compute; reflexivity).
  assert (W : inject_Z z / 100 == inject_Z z * (1 # 100)) by (unfold Qdiv; reflexivity).
  rewrite W in E4. clear W F1 F2 F3 F4.
  revert E1 E2 E3 E4 RE K1 K2 K3.
  generalize (N / T) (inject_Z z) (pow2 (-53)) (pow2 (-1075)).
  intros y zz rho u E1 E2 E3 E4 RE K1 K2 K3. lra.
Qed.

End PercentFacts.

Lemma percent_total_error (total : nat) (l : list (option string * nat)) :
  0 < total ->
  (Z.of_nat total < 2 ^ 53)%Z ->
  (forall kv, In kv l -> snd kv <= total) ->
  (Qabs (percent_total (percent_rows l total)
         - nat_q (sum_list_with snd l) / nat_q total * 100)
   <= nat_q (length l) * ((1 # 200) + (1 # 1000000000000)))%Q.
Proof.
  intros H Hb Hl.
  assert (T : ~ (nat_q total == 0)%Q).
  { unfold nat_q, Qeq. simpl. lia. }
  unfold percent_total, percent_rows.
  induction l as [| [k n] l IH]; cbn [map sum_list_with length qsum fold_right fst snd].
  - unfold nat_q. simpl. setoid_replace (0 - 0 / inject_Z (Z.of_nat total) * 100)%Q with 0%Q
      using relation Qeq by (field; exact T). discriminate.
  - fold (qsum (map (fun row => float_value (Percent row))
                  (map (fun kv => {| Category := fst kv; Frequency := snd kv;
                                     Percent := percent_of (snd kv) total |}) l))) in *.
    set (s := qsum _) in *.
    assert (IH' := IH (fun kv Hkv => Hl kv (or_intror Hkv))). clear IH.
    destruct (percent_of_spec n total (Hl (k, n) (or_introl eq_refl)) H Hb)
      as (p & -> & _ & _ & R).
    cbn [float_value Percent].
    unfold nat_q in *. rewrite Nat2Z.inj_add, Nat2Z.inj_succ, <- Z.add_1_l, !inject_Z_plus.
    change (inject_Z 1) with 1%Q.
    set (N := inject_Z (Z.of_nat n)) in *. set (S := inject_Z (Z.of_nat (sum_list_with snd l))) in *.
    set (t := inject_Z (Z.of_nat total)) in *. set (m := inject_Z (Z.of_nat (length l))) in *.
    setoid_replace (p + s - (N + S) / t * 100)%Q
      with ((p - N / t * 100) + (s - S / t * 100))%Q using relation Qeq by (field; exact T).
    eapply Qle_trans; [apply Qabs_triangle |].
    setoid_replace ((1 + m) * ((1 # 200) + (1 # 1000000000000)))%Q
      with (((1 # 200) + (1 # 1000000000000)) + m * ((1 # 200) + (1 # 1000000000000)))%Q
      using relation Qeq by ring.
    now apply Qplus_le_compat.
Qed.

Lemma occurrences_le (k : option string) (vals : list (option string)) :
  occurrences k vals <= length vals.
Proof.
  unfold occurrences. induction vals as [| v vals IH]; simpl; [lia |].
  destruct (bool_decide (v = k)); simpl; lia.
Qed.

Lemma value_counts_le (vals : list (option string)) (kv : option string * nat) :
  In kv (value_counts vals) -> 1 <= snd kv <= length vals.
Proof.
  destruct kv as [k n]. intros H. cbn [snd].
  assert (K : In k vals).
  { apply (proj2 (value_counts_keys vals)). apply in_map_iff. now exists (k, n). }
  apply value_counts_count in H. subst n.
  pose proof (proj1 (occurrences_pos k vals) K).
  pose proof (occurrences_le k vals). lia.
Qed.

Lemma select_other_length (df : DataFrame) (name : string) (vals : list (option string)) :
  from_excel df = true -> In (name, vals) (select_other df) -> length vals = index df.
Proof.
  unfold from_excel, select_other. rewrite !andb_true_iff. intros [[H _] _].
  induction (columns df) as [| c cs IH]; simpl in *; [tauto |].
  apply andb_true_iff in H as [H1 H2].
  destruct (data c) as [v | v] eqn:E; simpl; [now apply IH |].
  intros [[= <- <-] | I]; [| now apply IH].
  simpl in H1. now apply Nat.eqb_eq in H1.
Qed.

Lemma frequency_rows_sum (vals : list (option string)) (total : nat) :
  sum_list_with Frequency (frequency_rows vals total) = length vals.
Proof.
  rewrite <- value_counts_sum. unfold frequency_rows, percent_rows.
  induction (value_counts vals) as [| kv l IH]; simpl; [reflexivity | now rewrite IH].
Qed.

(** C5, as it stands, fails: with three answers given once each, every
    percentage is 33.33 and the column sums to 99.99, one unit of the last
    rounded decimal away from 100. *)
Lemma percent_sum_counterexample :
  fst (analyze score_agg degenerate_ttest offline (post thirds) fresh)
  = Return (Some (render "results.html" (ReportContext thirds_report)))
  /\ freq_tables thirds_report = [("Answer", thirds_rows)]
  /\ (Qabs (percent_total thirds_rows - (9999 # 100)) <= 1 # 1000000000000)%Q
  /\ ~ (Qabs (percent_total thirds_rows - 100) <= 1 # 1000000000)%Q.
Proof.
  split; [| split; [| split]].
  - pose proof (analyze_post score_agg degenerate_ttest offline (post thirds) thirds fresh
                  eq_refl eq_refl eq_refl eq_refl) as E.
    cbv zeta in E. now rewrite E.
  - vm_compute. reflexivity.
  - apply Qle_bool_iff. vm_compute. reflexivity.
  - intros H. apply Qle_bool_iff in H. vm_compute in H. discriminate H.
Qed.

(** C5, amended: when the analysis of a table with at least one row (and
    fewer than 2^53) returns its page, the counts of each frequency table
    sum to the number of rows; each percentage is the float64 computed by
    line 99 from its count, a number from 0 to 100 within 0.005 + 10^-12 of
    the exact share; and the percentages sum to 100 within 0.005 + 10^-12 per
    row of the frequency table. *)
Theorem percent_sum
        (agg : list (option Q) -> float64 * float64)
        (ttest_ind : list Q -> list Q -> float64 * float64)
        (service : nat -> prompt -> reply)
        (request : HttpRequest) (df : DataFrame) (w w' : world)
        (page : HttpResponse) :
  method request = "POST" ->
  is_valid (form request) = true ->
  file request = Workbook df ->
  from_excel df = true ->
  0 < index df ->
  (Z.of_nat (index df) < 2 ^ 53)%Z ->
  analyze agg ttest_ind service request w = (Return (Some page), w') ->
  exists r : Report,
    page = render "results.html" (ReportContext r)
    /\ session w' !! "report_data" = Some r
    /\ Forall2
         (fun (col : string * list (option string)) (tbl : string * list FrequencyRow) =>
            let rows := snd tbl in
            fst tbl = fst col
            /\ sum_list_with Frequency rows = total_n r
            /\ (forall row, In row rows ->
                  Percent row
                  = round (fmul (fdiv (float_of_nat (Frequency row))
                                      (float_of_nat (total_n r)))
                                (Fin 100)) 2
                  /\ exists p,
                       Percent row = Fin p
                       /\ (0 <= p)%Q /\ (p <= 100)%Q
                       /\ (Qabs (p - nat_q (Frequency row) / nat_q (total_n r) * 100)
                           <= (1 # 200) + (1 # 1000000000000))%Q)
            /\ (Qabs (percent_total rows - 100)
                <= nat_q (length rows) * ((1 # 200) + (1 # 1000000000000)))%Q)
         (select_other df) (freq_tables r).
Proof.
  intros Hm Hv Hf He Hn Hb Hr.
  destruct (analyze_returns _ _ _ _ _ _ _ _ Hm Hv Hf Hr) as (_ & -> & ->).
  clear Hr. eexists. split; [reflexivity |].
  split; [apply lookup_insert_eq |].
  cbn [freq_tables total_n report_of].
  apply Forall2_fmap_r, Forall_Forall2_diag, Forall_forall.
  intros [name vals] Hin. simpl.
  apply list_elem_of_In, (select_other_length df name vals He) in Hin.
  assert (B : forall kv, In kv (value_counts vals) -> snd kv <= index df).
  { intros kv H. apply value_counts_le in H. lia. }
  split; [reflexivity |]. split; [now rewrite frequency_rows_sum |]. split.
  - intros row H. unfold frequency_rows, percent_rows in H.
    apply in_map_iff in H as (kv & <- & H). cbn [Percent Frequency].
    split; [reflexivity |].
    apply percent_of_spec; [now apply B | exact Hn | exact Hb].
  - pose proof (percent_total_error (index df) (value_counts vals) Hn Hb B) as E.
    rewrite value_counts_sum, Hin in E.
    unfold frequency_rows, percent_rows in *. rewrite length_map.
    assert (T : ~ (nat_q (index df) == 0)%Q) by (unfold nat_q, Qeq; simpl; lia).
    setoid_replace (nat_q (index df) / nat_q (index df) * 100)%Q with 100%Q
      using relation Qeq in E by (field; exact T).
    exact E.
Qed.

(** ** Pearson's coefficient *)

Lemma qsum_ext {A} (f g : A -> Q) (l : list A) :
  (forall a, In a l -> (f a == g a)%Q) -> (qsum (map f l) == qsum (map g l))%Q.
Proof.
  induction l as [| a l IH]; simpl; intros H; [reflexivity |].
  rewrite (H a), IH; [reflexivity | | ]; auto.
Qed.

Lemma qsum_nonneg (ts : list Q) :
  (forall t, In t ts -> (0 <= t)%Q) -> (0 <= qsum ts)%Q.
Proof.
  induction ts as [| t ts IH]; simpl; intros H; [discriminate |].
  assert (0 <= t)%Q by auto. assert (0 <= qsum ts)%Q by auto. lra.
Qed.

Lemma qsum_nonneg_zero (ts : list Q) :
  (forall t, In t ts -> (0 <= t)%Q) -> (qsum ts == 0)%Q ->
  forall t, In t ts -> (t == 0)%Q.
Proof.
  induction ts as [| u ts IH]; simpl; intros H E t Ht; [tauto |].
  assert (0 <= u)%Q by auto.
  assert (0 <= qsum ts)%Q by (apply qsum_nonneg; auto).
  destruct Ht as [<- | Ht]; [lra |]. apply IH; auto. lra.
Qed.

Lemma qsum_zero (ts : list Q) :
  (forall t, In t ts -> (t == 0)%Q) -> (qsum ts == 0)%Q.
Proof.
  induction ts as [| u ts IH]; simpl; intros H; [reflexivity |].
  rewrite (H u), IH by auto. reflexivity.
Qed.

Lemma qsum_all (c : Q) (l : list Q) :
  (forall x, In x l -> (x == c)%Q) -> (qsum l == c * qlen l)%Q.
Proof.
  unfold qlen. induction l as [| x l IH]; intros H.
  - simpl. ring.
  - assert (E : (qsum (x :: l) == x + qsum l)%Q) by reflexivity.
    rewrite E. cbn [length].
    rewrite Nat2Z.inj_succ, <- Z.add_1_l, inject_Z_plus.
    rewrite (H x) by (simpl; auto). rewrite IH by (simpl in H; auto).
    change (inject_Z 1) with 1%Q. ring.
Qed.

Lemma combine_fst_snd {A B} (ps : list (A * B)) :
  combine (map fst ps) (map snd ps) = ps.
Proof. induction ps as [| [a b] ps IH]; simpl; [reflexivity | now rewrite IH]. Qed.

Lemma sdm_pairs (ps : list (Q * Q)) :
  sdm (map fst ps) (map snd ps)
  = qsum (map (fun p => ((fst p - qmean (map fst ps)) * (snd p - qmean (map snd ps)))%Q) ps).
Proof. unfold sdm. now rewrite combine_fst_snd. Qed.

Lemma sdm_self (l : list Q) :
  sdm l l = qsum (map (fun x => ((x - qmean l) * (x - qmean l))%Q) l).
Proof.
  unfold sdm. f_equal. generalize (qmean l) as m. intros m.
  induction l as [| x l IH]; simpl; [reflexivity | now rewrite IH].
Qed.

Lemma combine_swap {A B} (X : list A) (Y : list B) :
  combine Y X = map swap (combine X Y).
Proof.
  revert Y. induction X as [| x X IH]; intros [| y Y]; simpl; try reflexivity.
  now rewrite IH.
Qed.

Lemma sdm_sym (X Y : list Q) : (sdm Y X == sdm X Y)%Q.
Proof.
  unfold sdm. rewrite combine_swap, map_map.
  apply qsum_ext. intros p _. cbn [swap fst snd]. ring.
Qed.

Lemma sdm_self_nonneg (l : list Q) : (0 <= sdm l l)%Q.
Proof.
  rewrite sdm_self. apply qsum_nonneg. intros t H.
  apply in_map_iff in H as (x & <- & _).
  generalize (x - qmean l)%Q. intros y. nra.
Qed.

Lemma sdm_self_zero (l : list Q) :
  (sdm l l == 0)%Q <-> (forall x y, In x l -> In y l -> (x == y)%Q).
Proof.
  rewrite sdm_self. split.
  - intros E.
    assert (M : forall x, In x l -> (x == qmean l)%Q).
    { intros x Hx.
      assert (T : ((x - qmean l) * (x - qmean l) == 0)%Q).
      { refine (qsum_nonneg_zero _ _ E _ _).
        - intros t Ht. apply in_map_iff in Ht as (z & <- & _).
          generalize (z - qmean l)%Q. intros y. nra.
        - apply in_map_iff. now exists x. }
      apply Qmult_integral in T. lra. }
    intros x y Hx Hy. rewrite (M x Hx), (M y Hy). reflexivity.
  - intros H. apply qsum_zero. intros t Ht.
    apply in_map_iff in Ht as (x & <- & Hx).
    assert (M : (qmean l == x)%Q).
    { unfold qmean. rewrite (qsum_all x) by (intros y Hy; now apply H).
      field. unfold qlen, Qeq. destruct l; [destruct Hx |]. simpl. lia. }
    rewrite M. ring.
Qed.

Lemma Qeq_bool_comp (a b c d : Q) :
  (a == b)%Q -> (c == d)%Q -> Qeq_bool a c = Qeq_bool b d.
Proof.
  intros E F.
  destruct (Qeq_bool a c) eqn:G, (Qeq_bool b d) eqn:K; try reflexivity.
  - apply Qeq_bool_iff in G. apply Qeq_bool_neq in K.
    exfalso. apply K. rewrite <- E, <- F. exact G.
  - apply Qeq_bool_iff in K. apply Qeq_bool_neq in G.
    exfalso. apply G. rewrite E, F. exact K.
Qed.

Lemma sgn_Qnum_comp (a b : Q) : (a == b)%Q -> Z.sgn (Qnum a) = Z.sgn (Qnum b).
Proof.
  unfold Qeq. destruct (Qnum a), (Qnum b); simpl; intros E;
    try reflexivity; discriminate.
Qed.

Lemma rint_sqrt_comp (q q' : Q) : (q == q')%Q -> rint_sqrt q = rint_sqrt q'.
Proof.
  intros E. unfold rint_sqrt. cbv zeta. rewrite (Qfloor_comp _ _ E).
  now rewrite (Qcompare_comp q q' E _ _ (Qeq_refl _)).
Qed.

Lemma round_sqrt_comp (s : Z) (q q' : Q) (d : nat) :
  (q == q')%Q -> round_sqrt s q d = round_sqrt s q' d.
Proof.
  intros E. unfold round_sqrt.
  generalize (inject_Z (Z.pos (scale d * scale d))). intros c.
  rewrite (rint_sqrt_comp (q * c) (q' * c)); [reflexivity |].
  now rewrite E.
Qed.

Lemma omap_swap (l : list (option Q * option Q)) :
  omap (fun p => match p with
                 | (Some a, Some b) => Some (a, b)
                 | _ => None
                 end) (map swap l)
  = map swap (omap (fun p => match p with
                             | (Some a, Some b) => Some (a, b)
                             | _ => None
                             end) l).
Proof.
  induction l as [| [[a |] [b |]] l IH]; [reflexivity | | | |];
    unfold omap in *; simpl in *; rewrite ?IH; reflexivity.
Qed.

Lemma complete_pairs_swap (xs ys : list (option Q)) :
  complete_pairs ys xs = map swap (complete_pairs xs ys).
Proof. unfold complete_pairs. now rewrite combine_swap, omap_swap. Qed.

Lemma complete_pairs_diag (xs : list (option Q)) :
  complete_pairs xs xs = map (fun a => (a, a)) (dropna xs).
Proof.
  unfold complete_pairs, dropna.
  induction xs as [| [a |] xs IH]; [reflexivity | |];
    unfold omap in *; simpl in *; rewrite ?IH; reflexivity.
Qed.

Lemma complete_pairs_in (xs ys : list (option Q)) (p : Q * Q) :
  In p (complete_pairs xs ys) -> In (fst p) (dropna xs) /\ In (snd p) (dropna ys).
Proof.
  unfold complete_pairs, dropna. revert ys.
  induction xs as [| a xs IH]; intros [| b ys]; simpl; try tauto.
  destruct a as [a |], b as [b |]; simpl; intros H.
  - destruct H as [<- | H]; [simpl; auto |]. apply IH in H. tauto.
  - apply IH in H. tauto.
  - apply IH in H. tauto.
  - apply IH in H. tauto.
Qed.

Lemma constant_spec (xs : list (option Q)) :
  constant xs = true
  <-> (forall x y, In x (dropna xs) -> In y (dropna xs) -> (x == y)%Q).
Proof.
  unfold constant. destruct (dropna xs) as [| h rest].
  - split; [intros _ x y [] | reflexivity].
  - rewrite List.forallb_forall. split.
    + intros H.
      assert (K : forall x, In x (h :: rest) -> (h == x)%Q).
      { intros x [<- | Hx]; [reflexivity |]. now apply Qeq_bool_iff, H. }
      intros x y Hx Hy. rewrite <- (K x Hx), <- (K y Hy). reflexivity.
    + intros H x Hx. apply Qeq_bool_iff. apply H; simpl; auto.
Qed.

(** The coefficient does not depend on the order of the two columns. *)
Lemma pearson_round_sym (xs ys : list (option Q)) (d : nat) :
  pearson_round ys xs d = pearson_round xs ys d.
Proof.
  unfold pearson_round. rewrite complete_pairs_swap. cbv zeta.
  rewrite !map_map. cbn [swap fst snd].
  change (map (fun x : Q * Q => snd x) (complete_pairs xs ys))
    with (map snd (complete_pairs xs ys)).
  change (map (fun x : Q * Q => fst x) (complete_pairs xs ys))
    with (map fst (complete_pairs xs ys)).
  set (X := map fst (complete_pairs xs ys)).
  set (Y := map snd (complete_pairs xs ys)).
  assert (E : (sdm Y X == sdm X Y)%Q) by apply sdm_sym.
  rewrite (Qeq_bool_comp (sdm Y Y * sdm X X) (sdm X X * sdm Y Y) 0 0)
    by (ring || reflexivity).
  destruct (Qeq_bool (sdm X X * sdm Y Y) 0); [reflexivity |].
  f_equal. rewrite (sgn_Qnum_comp _ _ E). apply round_sqrt_comp.
  rewrite E, (Qmult_comm (sdm Y Y)). reflexivity.
Qed.

(** A column against itself: 1.0, unless the column has no variance. *)
Lemma pearson_round_diag (xs : list (option Q)) :
  pearson_round xs xs 3 = if constant xs then NaN else Fin 1.
Proof.
  unfold pearson_round. rewrite complete_pairs_diag. cbv zeta.
  rewrite !map_map. cbn [fst snd]. rewrite map_id.
  set (s := sdm (dropna xs) (dropna xs)).
  assert (N : (0 <= s)%Q) by apply sdm_self_nonneg.
  destruct (constant xs) eqn:C.
  - assert (Z : (s == 0)%Q)
      by exact (proj2 (sdm_self_zero _) (proj1 (constant_spec xs) C)).
    rewrite (Qeq_bool_comp (s * s) 0 0 0); [reflexivity | | reflexivity].
    rewrite Z. ring.
  - assert (P : ~ (s == 0)%Q).
    { intros Z.
      pose proof (proj2 (constant_spec xs) (proj1 (sdm_self_zero _) Z)).
      congruence. }
    assert (P2 : ~ (s * s == 0)%Q).
    { intros Z. apply Qmult_integral in Z. tauto. }
    destruct (Qeq_bool (s * s) 0) eqn:B; [apply Qeq_bool_iff in B; tauto |].
    f_equal.
    assert (S1 : Z.sgn (Qnum s) = 1%Z).
    { assert (L : (0 < s)%Q) by lra. unfold Qlt in L. simpl in L. lia. }
    rewrite S1, (round_sqrt_comp 1 _ 1 3); [reflexivity |].
    field. exact P.
Qed.

(** A column without variance has no coefficient with any column. *)
Lemma pearson_round_constant (xs ys : list (option Q)) (d : nat) :
  constant xs = true -> pearson_round xs ys d = NaN.
Proof.
  intros C. unfold pearson_round. cbv zeta.
  set (X := map fst (complete_pairs xs ys)).
  set (Y := map snd (complete_pairs xs ys)).
  assert (Z : (sdm X X == 0)%Q).
  { apply sdm_self_zero. intros x y Hx Hy.
    apply in_map_iff in Hx as (p & <- & Hp). apply in_map_iff in Hy as (q & <- & Hq).
    apply complete_pairs_in in Hp, Hq.
    apply (proj1 (constant_spec xs) C); tauto. }
  rewrite (Qeq_bool_comp (sdm X X * sdm Y Y) 0 0 0); [reflexivity | | reflexivity].
  rewrite Z. ring.
Qed.

Lemma corr_round_lookup (numeric : list (string * list (option Q))) (d a b : nat)
    (ra : string * list float64) (x : float64) :
  corr_round numeric d !! a = Some ra -> snd ra !! b = Some x ->
  exists ca cb, numeric !! a = Some ca /\ numeric !! b = Some cb
                /\ fst ra = fst ca /\ x = pearson_round (snd ca) (snd cb) d.
Proof.
  unfold corr_round. intros Ha Hb.
  change (@map) with (@fmap list _) in Ha.
  rewrite list_lookup_fmap in Ha.
  destruct (numeric !! a) as [ca |] eqn:Ea; [| discriminate].
  simpl in Ha. injection Ha as <-. simpl in Hb.
  change (@map) with (@fmap list _) in Hb.
  rewrite list_lookup_fmap in Hb.
  destruct (numeric !! b) as [cb |] eqn:Eb; [| discriminate].
  simpl in Hb. injection Hb as <-.
  exists ca, cb. auto.
Qed.

Lemma corr_round_shape (numeric : list (string * list (option Q))) (d : nat) :
  map fst (corr_round numeric d) = map fst numeric
  /\ Forall (fun r => length (snd r) = length numeric) (corr_round numeric d).
Proof.
  unfold corr_round. split.
  - rewrite map_map. reflexivity.
  - apply List.Forall_forall. intros r H. apply in_map_iff in H as (c & <- & _).
    simpl. now rewrite length_map.
Qed.

(** ** The correlation matrix *)

(** C4, as it stands, fails on its diagonal: a numeric column without
    variance has no coefficient, not even with itself, and the matrix of two
    such columns holds NaN in every cell. *)
Lemma correlation_matrix_counterexample :
  fst (analyze flat_agg degenerate_ttest offline (post flat) fresh)
  = Return (Some (render "results.html" (ReportContext flat_report)))
  /\ length (select_number flat) = 2
  /\ corr_rows flat_report = Some [("X", [NaN; NaN]); ("Y", [NaN; NaN])]
  /\ ~ (forall rows a ra x,
          corr_rows flat_report = Some rows ->
          rows !! a = Some ra -> snd ra !! a = Some x ->
          float_eqb x (Fin 1) = true).
Proof.
  split; [| split; [| split]].
  - pose proof (analyze_post flat_agg degenerate_ttest offline (post flat) flat fresh
                  eq_refl eq_refl eq_refl eq_refl) as E.
    cbv zeta in E. now rewrite E.
  - reflexivity.
  - reflexivity.
  - intros H.
    specialize (H [("X", [NaN; NaN]); ("Y", [NaN; NaN])] 0 ("X", [NaN; NaN]) NaN
                  eq_refl eq_refl eq_refl).
    discriminate H.
Qed.

(** C4, amended: when the analysis returns its page, the matrix (and its
    list of labels) is in the report exactly when the table has at least two
    numeric columns; it then has one row and one column per numeric column,
    in column order; the entry for (a, b) is the entry for (b, a); and a
    diagonal entry is 1.0 unless the values present in its column are all
    equal, where it is NaN. *)
Theorem correlation_matrix
        (agg : list (option Q) -> float64 * float64)
        (ttest_ind : list Q -> list Q -> float64 * float64)
        (service : nat -> prompt -> reply)
        (request : HttpRequest) (df : DataFrame) (w w' : world)
        (page : HttpResponse) :
  method request = "POST" ->
  is_valid (form request) = true ->
  file request = Workbook df ->
  analyze agg ttest_ind service request w = (Return (Some page), w') ->
  exists r : Report,
    page = render "results.html" (ReportContext r)
    /\ session w' !! "report_data" = Some r
    /\ let numeric := select_number df in
       (corr_rows r <> None <-> 2 <= length numeric)
       /\ (corr_cols r <> None <-> 2 <= length numeric)
       /\ forall rows, corr_rows r = Some rows ->
            corr_cols r = Some (map fst numeric)
            /\ map fst rows = map fst numeric
            /\ Forall (fun row => length (snd row) = length numeric) rows
            /\ (forall a b ra rb x y,
                  rows !! a = Some ra -> rows !! b = Some rb ->
                  snd ra !! b = Some x -> snd rb !! a = Some y ->
                  x = y)
            /\ (forall a ca ra x,
                  numeric !! a = Some ca ->
                  rows !! a = Some ra -> snd ra !! a = Some x ->
                  x = if constant (snd ca) then NaN else Fin 1).
Proof.
  intros Hm Hv Hf Hr.
  destruct (analyze_returns _ _ _ _ _ _ _ _ Hm Hv Hf Hr) as (_ & -> & ->).
  clear Hr. eexists. split; [reflexivity |].
  split; [apply lookup_insert_eq |].
  cbn [corr_rows corr_cols report_of]. cbv zeta.
  destruct (Nat.ltb_spec 1 (length (select_number df))) as [L | L].
  - split; [split; [lia | discriminate] |].
    split; [split; [lia | discriminate] |].
    intros rows [= <-].
    split; [reflexivity |].
    split; [apply corr_round_shape |].
    split; [apply corr_round_shape |].
    split.
    + intros a b ra rb x y Ha Hb Hx Hy.
      destruct (corr_round_lookup _ _ _ _ _ _ Ha Hx) as (ca & cb & A1 & B1 & _ & ->).
      destruct (corr_round_lookup _ _ _ _ _ _ Hb Hy) as (cb' & ca' & B2 & A2 & _ & ->).
      rewrite A1 in A2. rewrite B1 in B2.
      injection A2 as <-. injection B2 as <-.
      apply pearson_round_sym.
    + intros a ca ra x Hc Ha Hx.
      destruct (corr_round_lookup _ _ _ _ _ _ Ha Hx) as (c1 & c2 & A1 & A2 & _ & ->).
      rewrite Hc in A1, A2. injection A1 as <-. injection A2 as <-.
      apply pearson_round_diag.
  - split; [split; [intros H; now destruct H | lia] |].
    split; [split; [intros H; now destruct H | lia] |].
    intros rows [=].
Qed.

(** ** Degenerate statistics *)

(** C7, as it stands, fails: on the table of two columns without variance
    the analysis raises nothing; it answers with the results page and stores
    a report whose correlation matrix and Welch test hold NaN only. *)
Lemma degenerate_statistics_counterexample :
  constant [Some 5%Q; Some 5%Q; Some 5%Q] = true
  /\ select_number flat
     = [("X", [Some 5%Q; Some 5%Q; Some 5%Q]); ("Y", [Some 5%Q; Some 5%Q; Some 5%Q])]
  /\ fst (analyze flat_agg degenerate_ttest offline (post flat) fresh)
     = Return (Some (render "results.html" (ReportContext flat_report)))
  /\ session (snd (analyze flat_agg degenerate_ttest offline (post flat) fresh))
       !! "report_data"
     = Some flat_report
  /\ corr_rows flat_report = Some [("X", [NaN; NaN]); ("Y", [NaN; NaN])]
  /\ ttest_results flat_report
     = [ {| var1 := "X"; var2 := "Y"; t_stat := NaN; p_val := NaN |} ]
  /\ ~ (exists e, fst (analyze flat_agg degenerate_ttest offline (post flat) fresh)
                  = Raise e).
Proof.
  pose proof (analyze_post flat_agg degenerate_ttest offline (post flat) flat fresh
                eq_refl eq_refl eq_refl eq_refl) as E.
  cbv zeta in E. fold flat_report in E.
  split; [reflexivity |]. split; [reflexivity |].
  split; [now rewrite E |].
  split; [rewrite E; apply lookup_insert_eq |].
  split; [reflexivity |]. split; [reflexivity |].
  intros (e & H). rewrite E in H. discriminate H.
Qed.

(** C7, amended: a degenerate statistic is emitted, not raised: when the
    analysis returns its page, a numeric column whose present values are all
    equal has NaN in its whole row and its whole column of the correlation
    matrix of the report, and a pair of columns on which the Welch test
    answers NaN is listed with NaN for its statistic and its p-value. *)
Theorem degenerate_statistics_emitted
        (agg : list (option Q) -> float64 * float64)
        (ttest_ind : list Q -> list Q -> float64 * float64)
        (service : nat -> prompt -> reply)
        (request : HttpRequest) (df : DataFrame) (w w' : world)
        (page : HttpResponse) :
  method request = "POST" ->
  is_valid (form request) = true ->
  file request = Workbook df ->
  analyze agg ttest_ind service request w = (Return (Some page), w') ->
  exists r : Report,
    page = render "results.html" (ReportContext r)
    /\ session w' !! "report_data" = Some r
    /\ let numeric := select_number df in
       (forall rows a b ca ra rb x y,
          corr_rows r = Some rows ->
          numeric !! a = Some ca -> constant (snd ca) = true ->
          rows !! a = Some ra -> rows !! b = Some rb ->
          snd ra !! b = Some x -> snd rb !! a = Some y ->
          x = NaN /\ y = NaN)
       /\ (forall i j a b xs ys,
             i < j ->
             numeric !! i = Some (a, xs) -> numeric !! j = Some (b, ys) ->
             ttest_ind (dropna xs) (dropna ys) = (NaN, NaN) ->
             In {| var1 := a; var2 := b; t_stat := NaN; p_val := NaN |}
                (ttest_results r)).
Proof.
  intros Hm Hv Hf E.
  destruct (analyze_returns _ _ _ _ _ _ _ _ Hm Hv Hf E) as (_ & -> & ->).
  clear E. eexists. split; [reflexivity |].
  split; [apply lookup_insert_eq |].
  cbn [corr_rows ttest_results report_of]. cbv zeta. split.
  - intros rows a b ca ra rb x y Hr Hc Hk Ha Hb Hx Hy.
    destruct (Nat.ltb 1 (length (select_number df))); [| discriminate].
    injection Hr as <-.
    destruct (corr_round_lookup _ _ _ _ _ _ Ha Hx) as (c1 & c2 & A1 & _ & _ & ->).
    destruct (corr_round_lookup _ _ _ _ _ _ Hb Hy) as (c3 & c4 & _ & A2 & _ & ->).
    rewrite Hc in A1, A2. injection A1 as <-. injection A2 as <-.
    split; [now apply pearson_round_constant |].
    rewrite pearson_round_sym. now apply pearson_round_constant.
  - intros i j a b xs ys Hij Hi Hj Ht.
    rewrite ttests_pairs. apply in_map_iff. exists (i, j). split.
    + rewrite (ttest_of_lookup _ _ _ _ _ _ _ _ Hi Hj), Ht. reflexivity.
    + apply in_pairs. split; [exact Hij |]. now apply lookup_lt_Some in Hj.
Qed.

(** ** The theorems at sample inputs *)

Lemma scores_run :
  analyze score_agg degenerate_ttest quota (post scores) fresh
  = (Return (Some (render "results.html"
                     (ReportContext
                        (report_of score_agg degenerate_ttest quota sample_form scores fresh)))),
     stored (report_of score_agg degenerate_ttest quota sample_form scores fresh)
            (snd (discuss quota (tables score_agg degenerate_ttest scores) fresh))).
Proof.
  exact (analyze_post score_agg degenerate_ttest quota (post scores) scores fresh
           eq_refl eq_refl eq_refl eq_refl).
Qed.

Lemma thirds_run :
  analyze score_agg degenerate_ttest offline (post thirds) fresh
  = (Return (Some (render "results.html" (ReportContext thirds_report))),
     stored thirds_report
            (snd (discuss offline (tables score_agg degenerate_ttest thirds) fresh))).
Proof.
  exact (analyze_post score_agg degenerate_ttest offline (post thirds) thirds fresh
           eq_refl eq_refl eq_refl eq_refl).
Qed.

Lemma flat_run :
  analyze flat_agg degenerate_ttest offline (post flat) fresh
  = (Return (Some (render "results.html" (ReportContext flat_report))),
     stored flat_report
            (snd (discuss offline (tables flat_agg degenerate_ttest flat) fresh))).
Proof.
  exact (analyze_post flat_agg degenerate_ttest offline (post flat) flat fresh
           eq_refl eq_refl eq_refl eq_refl).
Qed.

Lemma table_discussions_count_and_order_witness :
  exists (page : HttpResponse) (w' : world) (r : Report),
    analyze score_agg degenerate_ttest quota (post scores) fresh = (Return (Some page), w')
    /\ page = render "results.html" (ReportContext r)
    /\ session w' !! "report_data" = Some r
    /\ length (table_discussions r) = 5
    /\ map fst (table_discussions r)
       = ["Table A. Raw Data"; "Table B. Statistical Summary";
          "Table C. Frequency Distribution of Town";
          "Correlation Matrix"; "T-Test Results"].
Proof.
  destruct (table_discussions_count_and_order
              score_agg degenerate_ttest quota (post scores) scores fresh _ _
              eq_refl eq_refl eq_refl eq_refl scores_run) as (r & Hp & Hs & L & T).
  eexists _, _, r. split; [exact scores_run |].
  split; [exact Hp |]. split; [exact Hs |]. split; [exact L | exact T].
Defined.

Lemma discussion_fallback_witness :
  fst (ai_generate_discussion quota "Table B. Statistical Summary"
         "This table summarizes central tendency and variability."
         (StatsTable []) {| session := ∅; stdout := []; requests := 1 |})
  = Return "AI-generated discussion is unavailable at the moment."
  /\ exists (page : HttpResponse) (w1 : world) (r r' : Report) (w1' : world),
       analyze score_agg degenerate_ttest chatty (post scores) fresh
       = (Return (Some page), w1)
       /\ page = render "results.html" (ReportContext r)
       /\ analyze score_agg degenerate_ttest quota (post scores) fresh
          = (Return (Some (render "results.html" (ReportContext r'))), w1')
       /\ map fst (table_discussions r') = map fst (table_discussions r)
       /\ (exists text,
             table_discussions r !! 1 = Some ("Table B. Statistical Summary", text)
             /\ table_discussions r' !! 1
                = Some ("Table B. Statistical Summary",
                        "AI-generated discussion is unavailable at the moment."))
       /\ table_discussions r' !! 2 = table_discussions r !! 2.
Proof.
  assert (A : forall k p, k <> 1 -> quota k p = chatty k p).
  { intros k p H. unfold quota. destruct (Nat.eqb_spec k 1); [contradiction | reflexivity]. }
  assert (B : forall p, exists message, quota 1 p = Failure message).
  { intros p. now exists "Rate limit reached.". }
  pose proof (analyze_post score_agg degenerate_ttest chatty (post scores) scores fresh
                eq_refl eq_refl eq_refl eq_refl) as E.
  cbv zeta in E.
  destruct (discussion_fallback score_agg degenerate_ttest chatty quota (post scores) scores
              fresh 1 eq_refl eq_refl eq_refl A B) as [F G].
  split.
  - exact (F _ _ _ {| session := ∅; stdout := []; requests := 1 |} eq_refl).
  - destruct (G _ _ E) as (r & r' & w1' & Hp & E' & T & D).
    eexists _, _, r, r', w1'.
    split; [exact E |]. split; [exact Hp |]. split; [exact E' |]. split; [exact T |].
    injection Hp as <-.
    split.
    + eexists. split; [reflexivity |].
      exact (D 1 _ _ eq_refl).
    + exact (D 2 _ _ eq_refl).
Defined.

Lemma pairwise_tests_witness :
  exists (page : HttpResponse) (w' : world) (r : Report),
    analyze score_agg degenerate_ttest quota (post scores) fresh = (Return (Some page), w')
    /\ page = render "results.html" (ReportContext r)
    /\ length (ttest_results r) = 3.
Proof.
  destruct (pairwise_tests score_agg degenerate_ttest quota (post scores) scores fresh _ _
              eq_refl eq_refl eq_refl eq_refl scores_run) as (r & Hp & _ & L & _).
  eexists _, _, r. split; [exact scores_run |]. split; [exact Hp | exact L].
Defined.

Lemma frequency_rows_order_witness :
  exists (page : HttpResponse) (w' : world) (r : Report),
    analyze score_agg degenerate_ttest quota (post scores) fresh = (Return (Some page), w')
    /\ page = render "results.html" (ReportContext r)
    /\ length (freq_tables r) = 1.
Proof.
  destruct (frequency_rows_order score_agg degenerate_ttest quota (post scores) scores
              fresh _ _ eq_refl eq_refl eq_refl scores_run) as (r & Hp & _ & F).
  eexists _, _, r. split; [exact scores_run |]. split; [exact Hp |].
  apply Forall2_length in F. now rewrite <- F.
Defined.

Lemma percent_sum_witness :
  exists (page : HttpResponse) (w' : world) (r : Report),
    analyze score_agg degenerate_ttest offline (post thirds) fresh = (Return (Some page), w')
    /\ page = render "results.html" (ReportContext r)
    /\ length (freq_tables r) = 1.
Proof.
  assert (N : 0 < index thirds) by (simpl; lia).
  assert (B : (Z.of_nat (index thirds) < 2 ^ 53)%Z) by reflexivity.
  destruct (percent_sum score_agg degenerate_ttest offline (post thirds) thirds fresh _ _
              eq_refl eq_refl eq_refl eq_refl N B thirds_run) as (r & Hp & _ & F).
  eexists _, _, r. split; [exact thirds_run |]. split; [exact Hp |].
  apply Forall2_length in F. now rewrite <- F.
Defined.

Lemma correlation_matrix_witness :
  exists (page : HttpResponse) (w' : world) (r : Report),
    analyze score_agg degenerate_ttest quota (post scores) fresh = (Return (Some page), w')
    /\ page = render "results.html" (ReportContext r)
    /\ corr_cols r = Some ["Age"; "Income"; "Rating"].
Proof.
  destruct (correlation_matrix score_agg degenerate_ttest quota (post scores) scores fresh
              _ _ eq_refl eq_refl eq_refl scores_run) as (r & Hp & _ & [_ L] & _ & C).
  eexists _, _, r. split; [exact scores_run |]. split; [exact Hp |].
  destruct (corr_rows r) as [rows |] eqn:R.
  - exact (proj1 (C rows eq_refl)).
  - exfalso. apply L; [simpl; lia | reflexivity].
Defined.

Lemma degenerate_statistics_emitted_witness :
  exists (page : HttpResponse) (w' : world) (r : Report),
    analyze flat_agg degenerate_ttest offline (post flat) fresh = (Return (Some page), w')
    /\ page = render "results.html" (ReportContext r)
    /\ In {| var1 := "X"; var2 := "Y"; t_stat := NaN; p_val := NaN |} (ttest_results r).
Proof.
  destruct (degenerate_statistics_emitted flat_agg degenerate_ttest offline (post flat) flat
              fresh _ _ eq_refl eq_refl eq_refl flat_run) as (r & Hp & _ & _ & T).
  eexists _, _, r. split; [exact flat_run |]. split; [exact Hp |].
  exact (T 0 1 "X" "Y" _ _ (le_n 1) eq_refl eq_refl eq_refl).
Defined.

Lemma export_word_response_witness :
  fst (export_word get fresh)
  = Return {| content_type := None; headers := []; body := Text "No data available." |}
  /\ exists (page : HttpResponse) (w : world) (data : Report),
       analyze score_agg degenerate_ttest quota (post scores) fresh = (Return (Some page), w)
       /\ page = render "results.html" (ReportContext data)
       /\ session w !! "report_data" = Some data
       /\ fst (export_word get w)
          = Return
              {| content_type :=
                   Some "application/vnd.openxmlformats-officedocument.wordprocessingml.document";
                 headers :=
                   [("Content-Disposition", "attachment; filename=Research_Report.docx")];
                 body :=
                   Docx ([Heading (title data) 1;
                          Paragraph ("Objective: " +:+ objective data);
                          Paragraph ("Problem: " +:+ problem data);
                          Paragraph ("Respondents: " +:+ str_nat (total_n data));
                          Heading "Discussion of Results" 1]
                         ++ flat_map (fun td => [Heading (fst td) 2; Paragraph (snd td)])
                              (table_discussions data)) |}.
Proof.
  split.
  - exact (proj1 (export_word_response get fresh) eq_refl).
  - destruct (export_word_response
                get (stored (report_of score_agg degenerate_ttest quota sample_form scores fresh)
                       (snd (discuss quota (tables score_agg degenerate_ttest scores) fresh))))
      as (_ & D & A).
    destruct (A score_agg degenerate_ttest quota (post scores) scores fresh _
                eq_refl eq_refl eq_refl scores_run) as (data & Hp & Hs).
    eexists _, _, data. split; [exact scores_run |].
    split; [exact Hp |]. split; [exact Hs |]. exact (D data Hs).
Defined.

(** * Further properties of the handlers *)

(** ** Requests that [analyze] turns down *)

(** X1: a submission whose form is not valid gets the upload page again,
    with the form as it was sent, and nothing else happens: the file is not
    read (an unreadable one raises nothing), the service is not asked, nothing
    is printed and the session keeps what it held. *)
Theorem analyze_invalid_form
        (agg : list (option Q) -> float64 * float64)
        (ttest_ind : list Q -> list Q -> float64 * float64)
        (service : nat -> prompt -> reply) (request : HttpRequest) (w : world) :
  method request = "POST" ->
  is_valid (form request) = false ->
  analyze agg ttest_ind service request w
  = (Return (Some (render "index.html" (FormContext (form request)))), w).
Proof.
  intros Hm Hv. rewrite analyze_run, Hm, Hv. reflexivity.
Qed.

Lemma analyze_invalid_form_witness :
  analyze score_agg degenerate_ttest chatty incomplete fresh
  = (Return (Some (render "index.html" (FormContext (form incomplete)))), fresh).
Proof.
  apply (analyze_invalid_form score_agg degenerate_ttest chatty incomplete fresh); reflexivity.
Defined.

(** X2: a valid submission whose file [pd.read_excel] cannot read makes
    [analyze] raise the reader's exception; it is raised before anything is
    computed: the service is not asked, nothing is printed, and the report of
    an earlier analysis stays in the session. *)
Theorem analyze_unreadable_upload
        (agg : list (option Q) -> float64 * float64)
        (ttest_ind : list Q -> list Q -> float64 * float64)
        (service : nat -> prompt -> reply) (request : HttpRequest) (w : world)
        (message : string) :
  method request = "POST" ->
  is_valid (form request) = true ->
  file request = Unreadable message ->
  analyze agg ttest_ind service request w = (Raise (Exception message), w).
Proof.
  intros Hm Hv Hf. rewrite analyze_run, Hm, Hv, Hf. reflexivity.
Qed.

Lemma analyze_unreadable_upload_witness :
  analyze score_agg degenerate_ttest chatty garbled fresh
  = (Raise (Exception "File is not a zip file"), fresh).
Proof.
  apply (analyze_unreadable_upload score_agg degenerate_ttest chatty garbled fresh); reflexivity.
Defined.

(** ** The routes *)

(** X3: the three routes: a pattern is found under its own route and its
    route under its own name (no pattern hides another); a path resolves
    exactly when it is one of the three routes, as written: the analysis
    route without its final slash has no pattern. *)
Theorem urlpatterns_resolve
        (agg : list (option Q) -> float64 * float64)
        (ttest_ind : list Q -> list Q -> float64 * float64)
        (service : nat -> prompt -> reply) :
  let patterns := urlpatterns agg ttest_ind service in
  (forall p, In p patterns ->
     resolve patterns (pattern_route p) = Some p
     /\ reverse patterns (pattern_name p) = Some (pattern_route p))
  /\ (forall url p, resolve patterns url = Some p -> In p patterns /\ pattern_route p = url)
  /\ (forall url, resolve patterns url = None
                  <-> url <> "" /\ url <> "analyze/" /\ url <> "export-word/")
  /\ map pattern_name patterns = ["index"; "analyze"; "export_word"]
  /\ resolve patterns "analyze" = None.
Proof.
  cbv zeta. split; [| split; [| split; [| split]]].
  - intros p [<- | [<- | [<- | []]]]; split; reflexivity.
  - intros url p H. apply find_some in H as [H1 H2].
    split; [exact H1 | now apply String.eqb_eq].
  - intros url. unfold resolve, urlpatterns. cbn [List.find path pattern_route].
    destruct (String.eqb_spec "" url) as [<- | N1].
    { split; [discriminate | intros (H & _); now destruct H]. }
    destruct (String.eqb_spec "analyze/" url) as [<- | N2].
    { split; [discriminate | intros (_ & H & _); now destruct H]. }
    destruct (String.eqb_spec "export-word/" url) as [<- | N3].
    { split; [discriminate | intros (_ & _ & H); now destruct H]. }
    split; [intros _; repeat split; congruence | reflexivity].
  - reflexivity.
  - reflexivity.
Qed.

(** ** The column labelled "count" *)

Lemma count_free_spec {A} (cats : list (string * A)) :
  count_free cats = true <-> ~ In "count" (map fst cats).
Proof.
  unfold count_free. induction cats as [| col cats IH]; simpl; [tauto |].
  rewrite andb_true_iff, IH.
  destruct (String.eqb_spec (fst col) "count") as [E | E]; simpl.
  - split; [intros [H _]; discriminate | intros H; exfalso; apply H; now left].
  - split; [intros [_ H] [H' | H']; [contradiction | now apply H] |].
    intros H. split; [reflexivity |]. intros H'. apply H. now right.
Qed.

Lemma before_count_length {A} (cats : list (string * A)) :
  length (before_count cats) <= length cats.
Proof.
  induction cats as [| col cats IH]; simpl; [lia |].
  destruct (String.eqb (fst col) "count"); simpl; lia.
Qed.

(** X14: a column of another kind than numbers under the label "count"
    stops the analysis at line 97: [analyze] raises the error of
    [reset_index] and stores no report (the session is as it was).  By then
    the service has been asked about the raw data, about the statistical
    summary when there is one, and about the columns counted before that
    one, and about nothing else. *)
Theorem analyze_count_column
        (agg : list (option Q) -> float64 * float64)
        (ttest_ind : list Q -> list Q -> float64 * float64)
        (service : nat -> prompt -> reply)
        (request : HttpRequest) (df : DataFrame) (w : world) :
  method request = "POST" ->
  is_valid (form request) = true ->
  file request = Workbook df ->
  In "count" (map fst (select_other df)) ->
  exists w' : world,
    analyze agg ttest_ind service request w
    = (Raise (Exception "cannot insert count, already exists"), w')
    /\ session w' = session w
    /\ w' = snd (discuss service (tables_before_count agg df) w)
    /\ requests w' = requests w + length (tables_before_count agg df)
    /\ 1 <= length (tables_before_count agg df)
       <= 1 + (if negb (empty (select_number df) (index df)) then 1 else 0)
          + (length (select_other df) - 1).
Proof.
  intros Hm Hv Hf Hc.
  assert (C : count_free (select_other df) = false).
  { destruct (count_free (select_other df)) eqn:E; [| reflexivity].
    now apply count_free_spec in E. }
  eexists. split; [apply (analyze_count _ _ _ _ _ _ Hm Hv Hf C) |].
  split; [apply discuss_session |]. split; [reflexivity |].
  split; [apply discuss_requests |].
  unfold tables_before_count. cbv zeta. rewrite !length_app, length_map.
  assert (B : length (before_count (select_other df)) < length (select_other df)).
  { clear - C. unfold count_free in C.
    induction (select_other df) as [| col cats IH]; simpl in *; [discriminate |].
    destruct (String.eqb (fst col) "count"); simpl in *; [lia |].
    specialize (IH C). lia. }
  destruct (negb (empty (select_number df) (index df))); simpl; lia.
Qed.

(** ** What a report depends on *)

Section ReportFacts.

Variable service : nat -> prompt -> reply.

Lemma discuss_fst_requests (ts : list table) (w1 w2 : world) :
  requests w1 = requests w2 ->
  fst (discuss service ts w1) = fst (discuss service ts w2).
Proof.
  revert w1 w2; induction ts as [| t ts IH]; intros w1 w2 H; simpl; [reflexivity |].
  rewrite H. f_equal. apply IH. simpl. now rewrite H.
Qed.




End ReportFacts.

(** X5: an analysis replaces the stored report and reads nothing of the
    session: when it returns its page from one world, it returns the same
    page from any world with the same number of requests sent so far,
    whatever the two sessions and consoles hold, and the same report is
    stored; entries of the session under other keys are kept. *)
Theorem analyze_overwrites
        (agg : list (option Q) -> float64 * float64)
        (ttest_ind : list Q -> list Q -> float64 * float64)
        (service : nat -> prompt -> reply)
        (request : HttpRequest) (df : DataFrame) (w1 w1' w2 : world)
        (page : HttpResponse) :
  method request = "POST" ->
  is_valid (form request) = true ->
  file request = Workbook df ->
  requests w1 = requests w2 ->
  analyze agg ttest_ind service request w1 = (Return (Some page), w1') ->
  exists (w2' : world) (r : Report),
    analyze agg ttest_ind service request w2 = (Return (Some page), w2')
    /\ page = render "results.html" (ReportContext r)
    /\ session w1' !! "report_data" = Some r
    /\ session w2' !! "report_data" = Some r
    /\ (forall key, key <> "report_data" -> session w1' !! key = session w1 !! key)
    /\ (forall key, key <> "report_data" -> session w2' !! key = session w2 !! key).
Proof.
  intros Hm Hv Hf Hr E.
  destruct (analyze_returns _ _ _ _ _ _ _ _ Hm Hv Hf E) as (Hc & -> & ->). clear E.
  pose proof (analyze_post agg ttest_ind service request df w2 Hm Hv Hf Hc) as E2.
  cbv zeta in E2.
  assert (R : report_of agg ttest_ind service (form request) df w1
              = report_of agg ttest_ind service (form request) df w2).
  { unfold report_of. f_equal. now apply discuss_fst_requests. }
  eexists _, _. rewrite R. split; [exact E2 |]. split; [reflexivity |].
  cbn [stored session].
  split; [apply lookup_insert_eq |]. split; [apply lookup_insert_eq |].
  split; intros key Hk; rewrite lookup_insert_ne by congruence; now rewrite discuss_session.
Qed.

(** X6: the statistics of a report do not depend on the text-generation
    service nor on what was asked or stored before: when an analysis returns
    its page, the analysis of the same submission with any other service and
    from any other world returns a page as well, and the two reports agree
    on every field but the texts of the discussions, whose titles agree as
    well. *)
Theorem statistics_ignore_service
        (agg : list (option Q) -> float64 * float64)
        (ttest_ind : list Q -> list Q -> float64 * float64)
        (service service' : nat -> prompt -> reply)
        (request : HttpRequest) (df : DataFrame) (w w1 w' : world)
        (page : HttpResponse) :
  method request = "POST" ->
  is_valid (form request) = true ->
  file request = Workbook df ->
  analyze agg ttest_ind service request w = (Return (Some page), w1) ->
  exists (r r' : Report) (w1' : world),
    page = render "results.html" (ReportContext r)
    /\ analyze agg ttest_ind service' request w'
       = (Return (Some (render "results.html" (ReportContext r'))), w1')
    /\ title r = title r' /\ objective r = objective r' /\ problem r = problem r'
    /\ total_n r = total_n r' /\ raw_cols r = raw_cols r' /\ raw_data r = raw_data r'
    /\ stats_table r = stats_table r' /\ freq_tables r = freq_tables r'
    /\ corr_cols r = corr_cols r' /\ corr_rows r = corr_rows r'
    /\ ttest_results r = ttest_results r'
    /\ map fst (table_discussions r) = map fst (table_discussions r').
Proof.
  intros Hm Hv Hf E.
  destruct (analyze_returns _ _ _ _ _ _ _ _ Hm Hv Hf E) as (Hc & -> & ->). clear E.
  eexists _, _, _. split; [reflexivity |].
  split; [apply (analyze_post _ _ _ _ _ _ Hm Hv Hf Hc) |].
  cbn [title objective problem total_n raw_cols raw_data stats_table freq_tables
         corr_cols corr_rows ttest_results table_discussions report_of].
  repeat (split; [reflexivity |]).
  now rewrite !discuss_titles.
Qed.


(** ** The texts of the discussions *)







Section StripFacts.

Variable b1 : ascii -> bool.
Variable b2 : ascii -> ascii -> bool.
Variable b3 : ascii -> ascii -> ascii -> bool.






End StripFacts.







(** ** The range of the percentages *)

(** X10: in the report of an analysis that returns its page, on a table
    of fewer than 2^53 rows, every row of a frequency table counts at least
    one cell and at most all of them, and its percentage is a number from 0
    to 100; a sheet without data rows gives empty frequency tables. *)
Theorem percent_range
        (agg : list (option Q) -> float64 * float64)
        (ttest_ind : list Q -> list Q -> float64 * float64)
        (service : nat -> prompt -> reply)
        (request : HttpRequest) (df : DataFrame) (w w' : world)
        (page : HttpResponse) :
  method request = "POST" ->
  is_valid (form request) = true ->
  file request = Workbook df ->
  from_excel df = true ->
  (Z.of_nat (index df) < 2 ^ 53)%Z ->
  analyze agg ttest_ind service request w = (Return (Some page), w') ->
  exists r : Report,
    page = render "results.html" (ReportContext r)
    /\ Forall (fun tbl : string * list FrequencyRow =>
                 Forall (fun row =>
                           1 <= Frequency row <= total_n r
                           /\ exists p, Percent row = Fin p
                                        /\ (0 <= p)%Q /\ (p <= 100)%Q)
                        (snd tbl))
              (freq_tables r)
    /\ (total_n r = 0 -> Forall (fun tbl => snd tbl = []) (freq_tables r)).
Proof.
  intros Hm Hv Hf He Hb E.
  destruct (analyze_returns _ _ _ _ _ _ _ _ Hm Hv Hf E) as (_ & -> & ->). clear E.
  eexists. split; [reflexivity |].
  cbn [freq_tables total_n report_of]. split.
  - apply Forall_fmap, Forall_forall. intros [name vals] Hin. cbn [snd].
    apply list_elem_of_In, (select_other_length df name vals He) in Hin.
    apply Forall_forall. intros row Hrow.
    apply list_elem_of_In in Hrow. unfold frequency_rows, percent_rows in Hrow.
    apply in_map_iff in Hrow as (kv & <- & Hkv). cbn [Frequency Percent snd] in *.
    apply value_counts_le in Hkv. rewrite Hin in Hkv.
    split; [exact Hkv |].
    destruct (percent_of_spec (snd kv) (index df)) as (p & Ep & P0 & P1 & _);
      [lia | lia | exact Hb |].
    exists p. auto.
  - intros H0. apply Forall_fmap, Forall_forall. intros [name vals] Hin. cbn [snd].
    apply list_elem_of_In, (select_other_length df name vals He) in Hin.
    rewrite H0 in Hin. destruct vals; [reflexivity | discriminate].
Qed.

(** ** The columns of the upload *)



(** ** A sheet without data rows *)

Lemma from_excel_no_rows (df : DataFrame) :
  from_excel df = true -> index df = 0 ->
  select_number df = []
  /\ select_other df = map (fun c => (label c, [])) (columns df).
Proof.
  unfold from_excel, select_number, select_other. intros H H0. rewrite H0 in H.
  apply andb_true_iff in H as [H H2]. apply andb_true_iff in H as [H1 _].
  cbn [Nat.eqb negb orb] in H2.
  induction (columns df) as [| c cs IH]; [split; reflexivity |].
  cbn [forallb] in H1, H2.
  apply andb_true_iff in H1 as [L H1]. apply andb_true_iff in H2 as [N H2].
  destruct (IH H1 H2) as [IH1 IH2].
  unfold omap in *. unfold is_number in N. simpl.
  destruct (data c) as [v | v]; [discriminate |].
  simpl in L. apply Nat.eqb_eq in L. destruct v; [| discriminate].
  split; [exact IH1 | now rewrite IH2].
Qed.

(** X13: a workbook whose sheet has a header row, none of its headers
    being "count", and no data row is analysed without error: the report
    counts 0 respondents, has no raw row, no statistical summary, no
    correlation matrix and no test, and an empty frequency table for every
    column; the discussions are the one of the raw data and one per
    column. *)
Theorem analyze_empty_sheet
        (agg : list (option Q) -> float64 * float64)
        (ttest_ind : list Q -> list Q -> float64 * float64)
        (service : nat -> prompt -> reply)
        (request : HttpRequest) (df : DataFrame) (w : world) :
  method request = "POST" ->
  is_valid (form request) = true ->
  file request = Workbook df ->
  from_excel df = true ->
  index df = 0 ->
  ~ In "count" (map label (columns df)) ->
  exists (r : Report) (w' : world),
    analyze agg ttest_ind service request w
    = (Return (Some (render "results.html" (ReportContext r))), w')
    /\ session w' !! "report_data" = Some r
    /\ total_n r = 0
    /\ raw_data r = []
    /\ stats_table r = []
    /\ freq_tables r = map (fun c => (label c, [])) (columns df)
    /\ corr_cols r = None
    /\ corr_rows r = None
    /\ ttest_results r = []
    /\ map fst (table_discussions r)
       = "Table A. Raw Data"
         :: map (fun c => "Table C. Frequency Distribution of " +:+ label c) (columns df).
Proof.
  intros Hm Hv Hf He H0 Hn.
  destruct (from_excel_no_rows df He H0) as [N O].
  assert (Hc : count_free (select_other df) = true).
  { apply count_free_spec. rewrite O, map_map. exact Hn. }
  eexists _, _. split; [apply (analyze_post _ _ _ _ _ _ Hm Hv Hf Hc) |].
  split; [apply lookup_insert_eq |].
  cbn [total_n raw_data stats_table freq_tables corr_cols corr_rows ttest_results
         table_discussions report_of].
  assert (T := tables_titles agg ttest_ind df He). cbn zeta in T.
  rewrite N, O in T. cbn [length Nat.leb app] in T. rewrite map_map in T.
  rewrite discuss_titles.
  rewrite N, O. unfold values_tolist. rewrite H0. cbn [length empty negb Nat.ltb Nat.leb seq map].
  repeat (split; [reflexivity |]).
  split; [now rewrite map_map |]. repeat (split; [reflexivity |]).
  rewrite app_nil_r in T. exact T.
Qed.

(** ** The further properties at sample inputs *)

Lemma survey_run :
  analyze score_agg degenerate_ttest chatty (post survey) fresh
  = (Return (Some (render "results.html"
                     (ReportContext
                        (report_of score_agg degenerate_ttest chatty sample_form survey fresh)))),
     stored (report_of score_agg degenerate_ttest chatty sample_form survey fresh)
            (snd (discuss chatty (tables score_agg degenerate_ttest survey) fresh))).
Proof.
  exact (analyze_post score_agg degenerate_ttest chatty (post survey) survey fresh
           eq_refl eq_refl eq_refl eq_refl).
Qed.

Lemma analyze_count_column_witness :
  analyze score_agg degenerate_ttest offline (post counted) fresh
  = (Raise (Exception "cannot insert count, already exists"),
     {| session := ∅;
        stdout := ["OPENAI ERROR: Connection error."; "OPENAI ERROR: Connection error.";
                   "OPENAI ERROR: Connection error."];
        requests := 3 |}).
Proof.
  destruct (analyze_count_column score_agg degenerate_ttest offline (post counted) counted
              fresh eq_refl eq_refl eq_refl) as (w' & E & _ & W & _).
  - simpl. auto.
  - rewrite E, W. reflexivity.
Defined.

Lemma analyze_overwrites_witness :
  exists (page : HttpResponse) (w1' w2' : world) (r : Report),
    analyze score_agg degenerate_ttest chatty (post survey) fresh
    = (Return (Some page), w1')
    /\ analyze score_agg degenerate_ttest chatty (post survey) (stored flat_report fresh)
       = (Return (Some page), w2')
    /\ session w1' !! "report_data" = Some r
    /\ session w2' !! "report_data" = Some r.
Proof.
  destruct (analyze_overwrites score_agg degenerate_ttest chatty (post survey) survey
              fresh _ (stored flat_report fresh) _ eq_refl eq_refl eq_refl eq_refl
              survey_run) as (w2' & r & E & _ & S1 & S2 & _).
  eexists _, _, w2', r. split; [exact survey_run |]. auto.
Defined.

Lemma statistics_ignore_service_witness :
  exists (page : HttpResponse) (w1 : world) (r r' : Report) (w1' : world),
    analyze score_agg degenerate_ttest chatty (post survey) fresh = (Return (Some page), w1)
    /\ page = render "results.html" (ReportContext r)
    /\ analyze score_agg degenerate_ttest offline (post survey) (stored flat_report fresh)
       = (Return (Some (render "results.html" (ReportContext r'))), w1')
    /\ stats_table r = stats_table r'
    /\ freq_tables r = freq_tables r'.
Proof.
  destruct (statistics_ignore_service score_agg degenerate_ttest chatty offline
              (post survey) survey fresh _ (stored flat_report fresh) _
              eq_refl eq_refl eq_refl survey_run)
    as (r & r' & w1' & Hp & E2 & _ & _ & _ & _ & _ & _ & S & F & _).
  eexists _, _, r, r', w1'. split; [exact survey_run |]. auto.
Defined.



Lemma percent_range_witness :
  exists (page : HttpResponse) (w' : world) (r : Report),
    analyze score_agg degenerate_ttest chatty (post survey) fresh = (Return (Some page), w')
    /\ page = render "results.html" (ReportContext r)
    /\ Forall (fun tbl : string * list FrequencyRow =>
                 Forall (fun row => 1 <= Frequency row <= 3) (snd tbl))
              (freq_tables r).
Proof.
  assert (B : (Z.of_nat (index survey) < 2 ^ 53)%Z) by reflexivity.
  destruct (percent_range score_agg degenerate_ttest chatty (post survey) survey fresh _ _
              eq_refl eq_refl eq_refl eq_refl B survey_run) as (r & Hp & F & _).
  eexists _, _, r. split; [exact survey_run |]. split; [exact Hp |].
  injection Hp as <-.
  apply (Forall_impl _ _ _ F). intros tbl G.
  apply (Forall_impl _ _ _ G). intros row [H _]. exact H.
Defined.


Lemma analyze_empty_sheet_witness :
  exists (r : Report) (w' : world),
    analyze score_agg degenerate_ttest chatty (post header_only) fresh
    = (Return (Some (render "results.html" (ReportContext r))), w')
    /\ map fst (table_discussions r)
       = ["Table A. Raw Data";
          "Table C. Frequency Distribution of Score";
          "Table C. Frequency Distribution of Group"].
Proof.
  assert (N : ~ In "count" (map label (columns header_only))).
  { simpl. intros [H | [H | []]]; discriminate H. }
  destruct (analyze_empty_sheet score_agg degenerate_ttest chatty (post header_only)
              header_only fresh eq_refl eq_refl eq_refl eq_refl eq_refl N)
    as (r & w' & E & _ & _ & _ & _ & _ & _ & _ & _ & T).
  exists r, w'. auto.
Defined.
